(** * Chat server (server.js): event handlers over the session registry
      and the message log

    A shallow embedding of the socket.io handlers of [src/server.js].  The
    two module-level bindings [activeUsers] (an object used as a map from
    socket id to session record) and [messageHistory] (an array) form the
    state; every handler is a computation in a small state-and-output monad
    whose output is the list of calls made to the transport ([socket.emit],
    [io.emit], [socket.broadcast.emit], [socket.disconnect]), in program
    order.  A call of [socket.disconnect] runs the socket's [disconnect]
    listener before it returns, so what that listener does is part of the
    handler that made the call.

    Modelling choices.  Inbound payloads have the types the protocol gives
    them: a username is a string or absent, a message payload is an object
    with a string [content].  The clock is an input of [send_message]: the
    handler reads it twice ([Date.now()] and [new Date()]).  The objects the
    handlers share (the message pushed on the log and emitted, the session
    records listed by [Object.values], the log handed to [user_registered])
    are never written after creation and an emit encodes its argument when
    it is called, so values stand for references.  The [console.log] calls
    are left out. *)

From Stdlib Require Import List String Ascii Bool ZArith NArith Lia.
From Stdlib Require Import DecimalString DecimalPos DecimalZ Permutation.
Import ListNotations.
Local Open Scope string_scope.
Local Open Scope list_scope.

(** ** Plain JavaScript objects used as string-keyed maps *)

Module JsObject.

Section Props.
Variable V : Type.

(** Own enumerable properties, in creation order. *)
Definition t := list (string * V).

Definition empty : t := [].

(** [o[k]]: [None] stands for [undefined].  Only own properties are looked
    up: a socket id issued by the transport is never the name of a member
    of [Object.prototype]. *)
Fixpoint get (o : t) (k : string) : option V :=
  match o with
  | [] => None
  | (k', v) :: o' => if String.eqb k' k then Some v else get o' k
  end.

(** [o[k] = v]: an existing property keeps its place, a new one is created
    after all the others. *)
Fixpoint set (o : t) (k : string) (v : V) : t :=
  match o with
  | [] => [(k, v)]
  | (k', v') :: o' =>
      if String.eqb k' k then (k', v) :: o' else (k', v') :: set o' k v
  end.

(** [delete o[k]].  Keys are distinct in every object the handlers build
    (see [NoDup_keys_set]), so there is at most one entry to drop. *)
Fixpoint delete (o : t) (k : string) : t :=
  match o with
  | [] => []
  | (k', v') :: o' =>
      if String.eqb k' k then delete o' k else (k', v') :: delete o' k
  end.

Definition keys (o : t) : list string := map fst o.

(** A key is an array index when it is the canonical decimal form of an
    integer below 2^32 - 1. *)
Definition array_index (k : string) : option N :=
  match NilZero.uint_of_string k with
  | Some d =>
      let n := N.of_uint d in
      if String.eqb (NilZero.string_of_uint (N.to_uint n)) k
         && (n <? 4294967295)%N
      then Some n else None
  | None => None
  end.

Fixpoint insert_index (p : N * V) (l : list (N * V)) : list (N * V) :=
  match l with
  | [] => [p]
  | q :: l' =>
      if (fst p <=? fst q)%N then p :: q :: l' else q :: insert_index p l'
  end.

Definition sort_index (l : list (N * V)) : list (N * V) :=
  fold_right insert_index [] l.

Definition index_props (o : t) : list (N * V) :=
  flat_map (fun p => match array_index (fst p) with
                     | Some n => [(n, snd p)]
                     | None => []
                     end) o.

Definition string_props (o : t) : list V :=
  flat_map (fun p => match array_index (fst p) with
                     | Some _ => []
                     | None => [snd p]
                     end) o.

(** [Object.values(o)]: the values of the array-index keys in ascending
    numeric order, then those of the other keys in creation order. *)
Definition values (o : t) : list V :=
  map snd (sort_index (index_props o)) ++ string_props o.

End Props.

Arguments empty {V}.
Arguments get {V} o k.
Arguments set {V} o k v.
Arguments delete {V} o k.
Arguments keys {V} o.
Arguments values {V} o.
Arguments insert_index {V} p l.
Arguments sort_index {V} l.
Arguments index_props {V} o.
Arguments string_props {V} o.

End JsObject.

(** ** Records *)

Module Session.
(** [{ id: socket.id, username, status: 'online' }] *)
Record t := mk { id : string; username : string; status : string }.
End Session.

Module Payload.
(** The argument of [send_message]; only [content] is read. *)
Record t := mk { content : string }.
End Payload.

Module Message.
Record t := mk {
  messageId : string;
  chatId : string;
  senderId : string;
  senderName : string;
  content : string;
  type : string;
  timestamp : string;
  status : string
}.
End Message.

(** Outbound events, named as on the wire.  [typing_status] carries a
    [username] only when the typing handlers emit it. *)
Inductive OutEvent :=
| system_error (text : string)
| user_registered (userId : string) (messageHistory : list Message.t)
| user_joined (id username : string)
| active_users (users : list Session.t)
| new_message (message : Message.t)
| typing_status (userId : string) (username : option string) (isTyping : bool)
| user_left (id : string).

(** Who a transport call addresses: [socket.emit], [io.emit] and
    [socket.broadcast.emit]. *)
Inductive Target :=
| ToSocket (sid : string)
| ToAll
| ToAllExcept (sid : string).

Inductive Effect :=
| Emit (to : Target) (ev : OutEvent)
| Disconnect (sid : string) (close : bool).

(** The sockets of [connected] reached by an emit, as socket.io delivers
    it. *)
Definition recipients (connected : list string) (to : Target) : list string :=
  match to with
  | ToSocket sid => filter (String.eqb sid) connected
  | ToAll => connected
  | ToAllExcept sid => filter (fun c => negb (String.eqb sid c)) connected
  end.

(** ** State and handler monad *)

Record State := mkState {
  activeUsers : JsObject.t Session.t;
  messageHistory : list Message.t;
  (** the [username] property the registration handler sets on its socket,
      per socket id *)
  socket_username : JsObject.t string
}.

Definition init : State := mkState JsObject.empty [] JsObject.empty.

Definition M (A : Type) : Type := State -> A * State * list Effect.

Definition ret {A} (a : A) : M A := fun st => (a, st, []).

Definition bind {A B} (m : M A) (k : A -> M B) : M B :=
  fun st =>
    let '(a, st1, out1) := m st in
    let '(b, st2, out2) := k a st1 in
    (b, st2, out1 ++ out2).

Notation "x <- m ;; k" := (bind m (fun x => k))
  (at level 61, m at next level, right associativity).
Notation "m ;; k" := (bind m (fun _ => k))
  (at level 61, right associativity).

Definition read : M State := fun st => (st, st, []).
Definition tell (e : Effect) : M unit := fun st => (tt, st, [e]).

Definition socket_emit (sid : string) (ev : OutEvent) : M unit :=
  tell (Emit (ToSocket sid) ev).
Definition io_emit (ev : OutEvent) : M unit :=
  tell (Emit ToAll ev).
Definition socket_broadcast_emit (sid : string) (ev : OutEvent) : M unit :=
  tell (Emit (ToAllExcept sid) ev).

Definition activeUsers_get (sid : string) : M (option Session.t) :=
  fun st => (JsObject.get (activeUsers st) sid, st, []).
Definition activeUsers_set (sid : string) (s : Session.t) : M unit :=
  fun st => (tt, mkState (JsObject.set (activeUsers st) sid s)
                         (messageHistory st) (socket_username st), []).
Definition activeUsers_delete (sid : string) : M unit :=
  fun st => (tt, mkState (JsObject.delete (activeUsers st) sid)
                         (messageHistory st) (socket_username st), []).
Definition activeUsers_values : M (list Session.t) :=
  fun st => (JsObject.values (activeUsers st), st, []).
Definition messageHistory_push (m : Message.t) : M unit :=
  fun st => (tt, mkState (activeUsers st) (messageHistory st ++ [m])
                         (socket_username st), []).
Definition set_socket_username (sid username : string) : M unit :=
  fun st => (tt, mkState (activeUsers st) (messageHistory st)
                         (JsObject.set (socket_username st) sid username), []).

(** [Date.now().toString()] on the millisecond count [ms]. *)
Definition number_toString (ms : Z) : string :=
  NilZero.string_of_int (Z.to_int ms).

(** ** Handlers

    [sid] is [socket.id] of the socket the handler was installed on.  The
    [disconnect] listener comes first because [socket.disconnect] runs
    it. *)

Definition on_disconnect (sid : string) : M unit :=
  disconnectedUser <- activeUsers_get sid ;;
  match disconnectedUser with
  | Some disconnectedUser =>
      activeUsers_delete sid ;;
      io_emit (user_left (Session.id disconnectedUser)) ;;
      users <- activeUsers_values ;;
      io_emit (active_users users)
  | None => ret tt
  end.

(** [socket.disconnect(close)] on a connected socket: the socket leaves the
    namespace and its own [disconnect] listener runs before the call
    returns. *)
Definition socket_disconnect (sid : string) (close : bool) : M unit :=
  tell (Disconnect sid close) ;;
  on_disconnect sid.

Definition on_register_user (sid : string) (username : option string)
  : M unit :=
  match username with
  | None | Some EmptyString =>
      socket_emit sid (system_error "Username cannot be empty.") ;;
      socket_disconnect sid true
  | Some username =>
      activeUsers_set sid (Session.mk sid username "online") ;;
      set_socket_username sid username ;;
      st <- read ;;
      socket_emit sid (user_registered sid (messageHistory st)) ;;
      io_emit (user_joined sid username) ;;
      users <- activeUsers_values ;;
      io_emit (active_users users)
  end.

(** [date_now] is what [Date.now()] reads and [date_iso] what
    [new Date().toISOString()] yields when the handler runs. *)
Definition on_send_message (sid : string) (payload : Payload.t)
    (date_now : Z) (date_iso : string) : M unit :=
  sender <- activeUsers_get sid ;;
  match sender with
  | None =>
      socket_emit sid (system_error "Authentication failed. Please refresh.")
  | Some sender =>
      let message :=
        Message.mk (number_toString date_now)
                   "group-1"
                   (Session.id sender)
                   (Session.username sender)
                   (Payload.content payload)
                   "text"
                   date_iso
                   "delivered" in
      messageHistory_push message ;;
      io_emit (new_message message) ;;
      io_emit (typing_status (Session.id sender) None false)
  end.

Definition on_typing_start (sid : string) : M unit :=
  sender <- activeUsers_get sid ;;
  match sender with
  | Some sender =>
      socket_broadcast_emit sid
        (typing_status (Session.id sender) (Some (Session.username sender))
                       true)
  | None => ret tt
  end.

Definition on_typing_stop (sid : string) : M unit :=
  sender <- activeUsers_get sid ;;
  match sender with
  | Some sender =>
      socket_broadcast_emit sid
        (typing_status (Session.id sender) (Some (Session.username sender))
                       false)
  | None => ret tt
  end.

(** ** Event dispatch and runs *)

Inductive Inbound :=
| register_user (username : option string)
| send_message (payload : Payload.t) (date_now : Z) (date_iso : string)
| typing_start
| typing_stop
| disconnect.

Definition handle (sid : string) (e : Inbound) : M unit :=
  match e with
  | register_user username => on_register_user sid username
  | send_message payload date_now date_iso =>
      on_send_message sid payload date_now date_iso
  | typing_start => on_typing_start sid
  | typing_stop => on_typing_stop sid
  | disconnect => on_disconnect sid
  end.

Definition state_of {A} (r : A * State * list Effect) : State := snd (fst r).
Definition output_of {A} (r : A * State * list Effect) : list Effect := snd r.

(** One event at a time, each handler running to completion. *)
Fixpoint run (st : State) (trace : list (string * Inbound))
  : State * list Effect :=
  match trace with
  | [] => (st, [])
  | (sid, e) :: trace' =>
      let r := handle sid e st in
      let '(st', out') := run (state_of r) trace' in
      (st', output_of r ++ out')
  end.

Inductive reachable : State -> Prop :=
| reachable_init : reachable init
| reachable_step st sid e :
    reachable st -> reachable (state_of (handle sid e st)).

(** ** Observations and well-formedness *)

(** The messages carried by the [new_message] emits of an output, in the
    order the calls were made. *)
Fixpoint new_messages (out : list Effect) : list Message.t :=
  match out with
  | [] => []
  | Emit _ (new_message m) :: out' => m :: new_messages out'
  | _ :: out' => new_messages out'
  end.

(** What the client on socket [c] receives from one transport call made
    while the sockets [connected] are open. *)
Definition received (c : string) (connected : list string) (e : Effect)
  : list OutEvent :=
  match e with
  | Emit to ev =>
      if existsb (String.eqb c) (recipients connected to) then [ev] else []
  | Disconnect _ _ => []
  end.

(** The events client [c] receives from a sequence of calls, each paired
    with the sockets open when it is made. *)
Definition inbox (c : string) (calls : list (list string * Effect))
  : list OutEvent :=
  flat_map (fun p => received c (fst p) (snd p)) calls.

Fixpoint messages_of (evs : list OutEvent) : list Message.t :=
  match evs with
  | [] => []
  | new_message m :: evs' => m :: messages_of evs'
  | _ :: evs' => messages_of evs'
  end.

(** A session record as the registration handler builds it for key [k]. *)
Definition session_ok (k : string) (s : Session.t) : Prop :=
  Session.id s = k /\ Session.username s <> "" /\ Session.status s = "online".

Definition registry_ok (o : JsObject.t Session.t) : Prop :=
  NoDup (JsObject.keys o) /\ forall k s, In (k, s) o -> session_ok k s.

(** The username the registry holds for a socket, if any. *)
Definition username_of (st : State) (sid : string) : option string :=
  option_map Session.username (JsObject.get (activeUsers st) sid).

(** ** Reading runs and log entries *)

(** What one event does to the session of socket [sid], read off the event
    alone: an accepted [register_user] on [sid] installs a fresh record, a
    rejected one (which closes the socket) and [disconnect] on [sid] leave
    none, anything else keeps [cur]. *)
Definition session_step (sid : string) (cur : option Session.t)
    (p : string * Inbound) : option Session.t :=
  if String.eqb (fst p) sid then
    match snd p with
    | register_user (Some (String a u)) =>
        Some (Session.mk sid (String a u) "online")
    | register_user _ => None
    | disconnect => None
    | _ => cur
    end
  else cur.

Definition session_after (sid : string) (cur : option Session.t)
    (trace : list (string * Inbound)) : option Session.t :=
  fold_left (session_step sid) trace cur.

(** Reading a decimal numeral back as an integer. *)
Definition parse_number (s : string) : option Z :=
  option_map Z.of_int (NilZero.int_of_string s).

(** A log entry as [send_message] builds it. *)
Definition message_ok (m : Message.t) : Prop :=
  Message.chatId m = "group-1" /\
  Message.type m = "text" /\
  Message.status m = "delivered" /\
  Message.senderName m <> "" /\
  exists ms, Message.messageId m = number_toString ms.

(** The events whose handlers have no branch for an unregistered socket. *)
Definition needs_session (e : Inbound) : bool :=
  match e with
  | typing_start | typing_stop | disconnect => true
  | register_user _ | send_message _ _ _ => false
  end.

(** * Properties *)

(** ** Object operations *)

Section JsObjectFacts.
Context {V : Type}.
Implicit Types (o : JsObject.t V) (k : string) (v : V).

Lemma get_set_same o k v : JsObject.get (JsObject.set o k v) k = Some v.
Proof.
  induction o as [|[k' v'] o IH]; simpl.
  - now rewrite String.eqb_refl.
  - destruct (String.eqb k' k) eqn:E; simpl; rewrite E; auto.
Qed.

Lemma get_set_other o k k' v :
  k <> k' -> JsObject.get (JsObject.set o k v) k' = JsObject.get o k'.
Proof.
  intros Hne. induction o as [|[k0 v0] o IH]; simpl.
  - destruct (String.eqb k k') eqn:E; auto.
    apply String.eqb_eq in E. contradiction.
  - destruct (String.eqb k0 k) eqn:E; simpl.
    + apply String.eqb_eq in E. subst k0.
      destruct (String.eqb k k') eqn:E'; auto.
      apply String.eqb_eq in E'. contradiction.
    + now rewrite IH.
Qed.

Lemma get_delete_same o k : JsObject.get (JsObject.delete o k) k = None.
Proof.
  induction o as [|[k' v'] o IH]; simpl; auto.
  destruct (String.eqb k' k) eqn:E; simpl; auto. now rewrite E.
Qed.

Lemma get_delete_other o k k' :
  k <> k' -> JsObject.get (JsObject.delete o k) k' = JsObject.get o k'.
Proof.
  intros Hne. induction o as [|[k0 v0] o IH]; simpl; auto.
  destruct (String.eqb k0 k) eqn:E; simpl.
  - apply String.eqb_eq in E. subst k0.
    destruct (String.eqb k k') eqn:E'; auto.
    apply String.eqb_eq in E'. contradiction.
  - now rewrite IH.
Qed.

Lemma get_In o k v : JsObject.get o k = Some v -> In (k, v) o.
Proof.
  induction o as [|[k' v'] o IH]; simpl; try discriminate.
  destruct (String.eqb k' k) eqn:E; intros H.
  - apply String.eqb_eq in E. left. congruence.
  - right. auto.
Qed.

Lemma In_keys o k v : In (k, v) o -> In k (JsObject.keys o).
Proof. intros H. apply (in_map fst) in H. exact H. Qed.

Lemma In_get o k v :
  NoDup (JsObject.keys o) -> In (k, v) o -> JsObject.get o k = Some v.
Proof.
  induction o as [|[k' v'] o IH]; simpl; intros Hnd Hin; [contradiction|].
  inversion Hnd as [|? ? Hnotin Hnd']; subst.
  destruct Hin as [Heq | Hin].
  - inversion Heq; subst. now rewrite String.eqb_refl.
  - destruct (String.eqb k' k) eqn:E.
    + apply String.eqb_eq in E. subst k'.
      exfalso. apply Hnotin. eapply In_keys; eauto.
    + auto.
Qed.

Lemma In_set o k v k' v' :
  In (k', v') (JsObject.set o k v) -> (k' = k /\ v' = v) \/ In (k', v') o.
Proof.
  induction o as [|[k0 v0] o IH]; simpl.
  - intros [H|[]]. inversion H; auto.
  - destruct (String.eqb k0 k) eqn:E; simpl; intros [H|H].
    + apply String.eqb_eq in E. inversion H; subst; auto.
    + auto.
    + auto.
    + destruct (IH H); auto.
Qed.

Lemma In_delete o k k' v' :
  In (k', v') (JsObject.delete o k) -> k' <> k /\ In (k', v') o.
Proof.
  induction o as [|[k0 v0] o IH]; simpl; [tauto|].
  destruct (String.eqb k0 k) eqn:E; simpl.
  - intros H. destruct (IH H). auto.
  - intros [H|H].
    + inversion H; subst. apply String.eqb_neq in E. auto.
    + destruct (IH H). auto.
Qed.

Lemma keys_set_In o k v k' :
  In k' (JsObject.keys (JsObject.set o k v)) ->
  k' = k \/ In k' (JsObject.keys o).
Proof.
  unfold JsObject.keys. intros H. apply in_map_iff in H.
  destruct H as [[k0 v0] [Hk Hin]]. simpl in Hk. subst k0.
  apply In_set in Hin. destruct Hin as [[-> _]|Hin]; auto.
  right. apply in_map_iff. exists (k', v0). auto.
Qed.

Lemma NoDup_keys_set o k v :
  NoDup (JsObject.keys o) -> NoDup (JsObject.keys (JsObject.set o k v)).
Proof.
  induction o as [|[k0 v0] o IH]; simpl; intros Hnd.
  - constructor; [simpl; tauto | constructor].
  - inversion Hnd as [|? ? Hnotin Hnd']; subst.
    destruct (String.eqb k0 k) eqn:E; simpl.
    + constructor; auto.
    + constructor; auto.
      intros Hin. apply keys_set_In in Hin. destruct Hin as [->|Hin]; auto.
      now rewrite String.eqb_refl in E.
Qed.

Lemma NoDup_keys_delete o k :
  NoDup (JsObject.keys o) -> NoDup (JsObject.keys (JsObject.delete o k)).
Proof.
  induction o as [|[k0 v0] o IH]; simpl; intros Hnd; auto.
  inversion Hnd as [|? ? Hnotin Hnd']; subst.
  destruct (String.eqb k0 k) eqn:E; simpl; auto.
  constructor; auto.
  intros Hin. apply Hnotin. unfold JsObject.keys in *.
  apply in_map_iff in Hin. destruct Hin as [[k1 v1] [Hk Hin]].
  simpl in Hk. subst k1. apply In_delete in Hin.
  apply in_map_iff. exists (k0, v1). tauto.
Qed.

(** Sorting the array-index properties moves them but keeps each one. *)
Lemma In_insert_index (p q : N * V) l :
  In q (JsObject.insert_index p l) <-> q = p \/ In q l.
Proof.
  induction l as [|r l IH]; simpl.
  - intuition.
  - destruct (fst p <=? fst r)%N; simpl; [intuition|].
    rewrite IH. intuition.
Qed.

Lemma In_sort_index (q : N * V) l : In q (JsObject.sort_index l) <-> In q l.
Proof.
  induction l as [|p l IH]; simpl; [tauto|].
  rewrite In_insert_index, IH. intuition.
Qed.

(** [Object.values] lists exactly the values of the own properties. *)
Lemma In_values o v : In v (JsObject.values o) <-> exists k, In (k, v) o.
Proof.
  unfold JsObject.values. rewrite in_app_iff, in_map_iff. split.
  - intros [[[n v'] [Hv Hin]] | Hin].
    + simpl in Hv. subst v'. apply (proj1 (In_sort_index _ _)) in Hin.
      unfold JsObject.index_props in Hin. apply in_flat_map in Hin.
      destruct Hin as [[k w] [Hin Hm]]. simpl in Hm.
      destruct (JsObject.array_index k); simpl in Hm; [|contradiction].
      destruct Hm as [Hm|[]]. inversion Hm; subst. eauto.
    + unfold JsObject.string_props in Hin. apply in_flat_map in Hin.
      destruct Hin as [[k w] [Hin Hm]]. simpl in Hm.
      destruct (JsObject.array_index k); simpl in Hm; [contradiction|].
      destruct Hm as [Hm|[]]. subst. eauto.
  - intros [k Hin]. destruct (JsObject.array_index k) as [n|] eqn:E.
    + left. exists (n, v). split; auto. apply In_sort_index.
      unfold JsObject.index_props. apply in_flat_map.
      exists (k, v). split; auto. simpl. rewrite E. simpl. auto.
    + right. unfold JsObject.string_props. apply in_flat_map.
      exists (k, v). split; auto. simpl. rewrite E. simpl. auto.
Qed.

End JsObjectFacts.

(** ** Delivery *)

Lemma existsb_eqb_In c l : existsb (String.eqb c) l = true <-> In c l.
Proof.
  rewrite existsb_exists. split.
  - intros [x [Hin E]]. apply String.eqb_eq in E. now subst.
  - intros Hin. exists c. split; auto. apply String.eqb_refl.
Qed.

Lemma recipients_all connected c :
  In c (recipients connected ToAll) <-> In c connected.
Proof. reflexivity. Qed.

Lemma recipients_except connected a c :
  In c (recipients connected (ToAllExcept a)) <-> In c connected /\ c <> a.
Proof.
  simpl. rewrite filter_In, negb_true_iff, String.eqb_neq.
  intuition congruence.
Qed.

Lemma recipients_socket connected a c :
  In c (recipients connected (ToSocket a)) <-> In c connected /\ c = a.
Proof.
  simpl. rewrite filter_In, String.eqb_eq. intuition congruence.
Qed.

Lemma received_all c connected ev :
  In c connected -> received c connected (Emit ToAll ev) = [ev].
Proof.
  intros Hin. unfold received.
  destruct (existsb _ _) eqn:E; auto.
  apply (proj2 (existsb_eqb_In c _)) in Hin. simpl in *. congruence.
Qed.

Lemma received_except_self a connected ev :
  received a connected (Emit (ToAllExcept a) ev) = [].
Proof.
  unfold received. destruct (existsb _ _) eqn:E; auto.
  apply existsb_eqb_In, recipients_except in E. now destruct E.
Qed.

Lemma received_except_other a c connected ev :
  In c connected -> c <> a ->
  received c connected (Emit (ToAllExcept a) ev) = [ev].
Proof.
  intros Hin Hne. unfold received. destruct (existsb _ _) eqn:E; auto.
  assert (H : In c (recipients connected (ToAllExcept a)))
    by (apply recipients_except; auto).
  apply existsb_eqb_In in H. congruence.
Qed.

Lemma received_socket_other a c connected ev :
  c <> a -> received c connected (Emit (ToSocket a) ev) = [].
Proof.
  intros Hne. unfold received. destruct (existsb _ _) eqn:E; auto.
  apply existsb_eqb_In, recipients_socket in E. now destruct E.
Qed.

(** ** Handler equations *)

Ltac unfold_handler :=
  unfold on_register_user, on_send_message, on_typing_start, on_typing_stop,
    on_disconnect, bind, ret, read, tell, socket_emit, io_emit,
    socket_broadcast_emit, socket_disconnect, activeUsers_get,
    activeUsers_set, activeUsers_delete, activeUsers_values,
    messageHistory_push, set_socket_username; simpl.

Lemma on_register_user_nonempty sid u st :
  u <> "" ->
  on_register_user sid (Some u) st =
    let users := JsObject.set (activeUsers st) sid
                   (Session.mk sid u "online") in
    (tt,
     mkState users (messageHistory st)
             (JsObject.set (socket_username st) sid u),
     [Emit (ToSocket sid) (user_registered sid (messageHistory st));
      Emit ToAll (user_joined sid u);
      Emit ToAll (active_users (JsObject.values users))]).
Proof.
  intros Hne. destruct u as [|a u]; [congruence|]. reflexivity.
Qed.

Lemma on_send_message_registered sid sender payload date_now date_iso st :
  JsObject.get (activeUsers st) sid = Some sender ->
  on_send_message sid payload date_now date_iso st =
    let message :=
      Message.mk (number_toString date_now) "group-1" (Session.id sender)
                 (Session.username sender) (Payload.content payload)
                 "text" date_iso "delivered" in
    (tt,
     mkState (activeUsers st) (messageHistory st ++ [message])
             (socket_username st),
     [Emit ToAll (new_message message);
      Emit ToAll (typing_status (Session.id sender) None false)]).
Proof. intros H. unfold_handler. rewrite H. reflexivity. Qed.

Lemma on_send_message_unregistered sid payload date_now date_iso st :
  JsObject.get (activeUsers st) sid = None ->
  on_send_message sid payload date_now date_iso st =
    (tt, st,
     [Emit (ToSocket sid)
           (system_error "Authentication failed. Please refresh.")]).
Proof. intros H. unfold_handler. rewrite H. reflexivity. Qed.

Lemma on_typing_registered sid sender st :
  JsObject.get (activeUsers st) sid = Some sender ->
  on_typing_start sid st =
    (tt, st,
     [Emit (ToAllExcept sid)
           (typing_status (Session.id sender)
                          (Some (Session.username sender)) true)]) /\
  on_typing_stop sid st =
    (tt, st,
     [Emit (ToAllExcept sid)
           (typing_status (Session.id sender)
                          (Some (Session.username sender)) false)]).
Proof. intros H. split; unfold_handler; rewrite H; reflexivity. Qed.

Lemma on_typing_unregistered sid st :
  JsObject.get (activeUsers st) sid = None ->
  on_typing_start sid st = (tt, st, []) /\
  on_typing_stop sid st = (tt, st, []).
Proof. intros H. split; unfold_handler; rewrite H; reflexivity. Qed.

Lemma on_disconnect_registered sid user st :
  JsObject.get (activeUsers st) sid = Some user ->
  on_disconnect sid st =
    let users := JsObject.delete (activeUsers st) sid in
    (tt, mkState users (messageHistory st) (socket_username st),
     [Emit ToAll (user_left (Session.id user));
      Emit ToAll (active_users (JsObject.values users))]).
Proof. intros H. unfold_handler. rewrite H. reflexivity. Qed.

Lemma on_disconnect_unregistered sid st :
  JsObject.get (activeUsers st) sid = None ->
  on_disconnect sid st = (tt, st, []).
Proof. intros H. unfold_handler. rewrite H. reflexivity. Qed.

(** A rejected registration is the error notice, the call of
    [socket.disconnect(true)], and whatever the [disconnect] listener does
    in the state the handler was entered in. *)
Lemma on_register_user_empty sid username st :
  username = None \/ username = Some "" ->
  on_register_user sid username st =
    (tt, state_of (on_disconnect sid st),
     Emit (ToSocket sid) (system_error "Username cannot be empty.")
       :: Disconnect sid true :: output_of (on_disconnect sid st)).
Proof.
  intros [->| ->]; unfold on_register_user, socket_disconnect, socket_emit,
    bind, tell, state_of, output_of;
    destruct (on_disconnect sid st) as [[[] st'] out']; reflexivity.
Qed.

Lemma on_register_user_empty_unregistered sid username st :
  username = None \/ username = Some "" ->
  JsObject.get (activeUsers st) sid = None ->
  on_register_user sid username st =
    (tt, st,
     [Emit (ToSocket sid) (system_error "Username cannot be empty.");
      Disconnect sid true]).
Proof.
  intros Hemp Hget. rewrite (on_register_user_empty _ _ _ Hemp).
  now rewrite (on_disconnect_unregistered _ _ Hget).
Qed.

Lemma on_register_user_empty_registered sid username user st :
  username = None \/ username = Some "" ->
  JsObject.get (activeUsers st) sid = Some user ->
  on_register_user sid username st =
    let users := JsObject.delete (activeUsers st) sid in
    (tt, mkState users (messageHistory st) (socket_username st),
     [Emit (ToSocket sid) (system_error "Username cannot be empty.");
      Disconnect sid true;
      Emit ToAll (user_left (Session.id user));
      Emit ToAll (active_users (JsObject.values users))]).
Proof.
  intros Hemp Hget. rewrite (on_register_user_empty _ _ _ Hemp).
  now rewrite (on_disconnect_registered _ _ _ Hget).
Qed.

Ltac rejected_cases st sid Hemp :=
  let user := fresh "user" in
  let E := fresh "E" in
  destruct (JsObject.get (activeUsers st) sid) as [user|] eqn:E;
  [ rewrite (on_register_user_empty_registered _ _ _ _ Hemp E)
  | rewrite (on_register_user_empty_unregistered _ _ _ Hemp E) ].

(** Every username is either rejected or accepted by [register_user]. *)
Lemma username_cases (username : option string) :
  (username = None \/ username = Some "") \/
  exists u, username = Some u /\ u <> "".
Proof.
  destruct username as [[|a u]|]; auto.
  right. eexists. split; [reflexivity | discriminate].
Qed.

(** ** The registry invariant *)

Lemma registry_ok_empty : registry_ok JsObject.empty.
Proof. split; [constructor | intros k s []]. Qed.

Lemma registry_ok_set o sid u :
  u <> "" -> registry_ok o ->
  registry_ok (JsObject.set o sid (Session.mk sid u "online")).
Proof.
  intros Hne [Hnd Hall]. split.
  - now apply NoDup_keys_set.
  - intros k s Hin. apply In_set in Hin. destruct Hin as [[-> ->]|Hin]; auto.
    repeat split; auto.
Qed.

Lemma registry_ok_delete o sid :
  registry_ok o -> registry_ok (JsObject.delete o sid).
Proof.
  intros [Hnd Hall]. split.
  - now apply NoDup_keys_delete.
  - intros k s Hin. apply In_delete in Hin. now apply Hall.
Qed.

Lemma handle_preserves_registry_ok sid e st :
  registry_ok (activeUsers st) ->
  registry_ok (activeUsers (state_of (handle sid e st))).
Proof.
  intros Hok. destruct e as [username|payload date_now date_iso| | |]; simpl.
  - destruct (username_cases username) as [Hemp|[u [-> Hne]]].
    + rejected_cases st sid Hemp; simpl;
        [now apply registry_ok_delete | assumption].
    + rewrite (on_register_user_nonempty _ _ _ Hne). simpl.
      now apply registry_ok_set.
  - destruct (JsObject.get (activeUsers st) sid) as [sender|] eqn:E.
    + now rewrite (on_send_message_registered _ _ _ _ _ _ E).
    + now rewrite (on_send_message_unregistered _ _ _ _ _ E).
  - destruct (JsObject.get (activeUsers st) sid) as [sender|] eqn:E.
    + now rewrite (proj1 (on_typing_registered _ _ _ E)).
    + now rewrite (proj1 (on_typing_unregistered _ _ E)).
  - destruct (JsObject.get (activeUsers st) sid) as [sender|] eqn:E.
    + now rewrite (proj2 (on_typing_registered _ _ _ E)).
    + now rewrite (proj2 (on_typing_unregistered _ _ E)).
  - destruct (JsObject.get (activeUsers st) sid) as [user|] eqn:E.
    + rewrite (on_disconnect_registered _ _ _ E). simpl.
      now apply registry_ok_delete.
    + now rewrite (on_disconnect_unregistered _ _ E).
Qed.

Lemma reachable_registry_ok st : reachable st -> registry_ok (activeUsers st).
Proof.
  induction 1 as [|st sid e Hr IH].
  - apply registry_ok_empty.
  - now apply handle_preserves_registry_ok.
Qed.

Lemma reachable_session_id st sid s :
  reachable st -> JsObject.get (activeUsers st) sid = Some s ->
  Session.id s = sid.
Proof.
  intros Hr Hget. apply reachable_registry_ok in Hr. destruct Hr as [_ Hall].
  apply get_In in Hget. now destruct (Hall _ _ Hget).
Qed.

Lemma reachable_run st trace :
  reachable st -> reachable (fst (run st trace)).
Proof.
  revert st. induction trace as [|[sid e] trace IH]; intros st Hr; simpl; auto.
  specialize (IH _ (reachable_step st sid e Hr)).
  destruct (run (state_of (handle sid e st)) trace) as [st' out']. exact IH.
Qed.

(** Any [active_users] emit of a handler carries [Object.values] of the
    registry the handler leaves behind. *)
Lemma active_users_emit_is_snapshot sid e st to users :
  In (Emit to (active_users users)) (output_of (handle sid e st)) ->
  to = ToAll /\
  users = JsObject.values (activeUsers (state_of (handle sid e st))).
Proof.
  destruct e as [username|payload date_now date_iso| | |]; simpl.
  - destruct (username_cases username) as [Hemp|[u [-> Hne]]].
    + rejected_cases st sid Hemp; simpl.
      * intros [H|[H|[H|[H|[]]]]]; try discriminate. inversion H. auto.
      * intros [H|[H|[]]]; discriminate.
    + rewrite (on_register_user_nonempty _ _ _ Hne). simpl.
      intros [H|[H|[H|[]]]]; try discriminate. inversion H. auto.
  - destruct (JsObject.get (activeUsers st) sid) as [sender|] eqn:E.
    + rewrite (on_send_message_registered _ _ _ _ _ _ E). simpl.
      intros [H|[H|[]]]; discriminate.
    + rewrite (on_send_message_unregistered _ _ _ _ _ E). simpl.
      intros [H|[]]; discriminate.
  - destruct (JsObject.get (activeUsers st) sid) as [sender|] eqn:E.
    + rewrite (proj1 (on_typing_registered _ _ _ E)). simpl.
      intros [H|[]]; discriminate.
    + rewrite (proj1 (on_typing_unregistered _ _ E)). simpl. tauto.
  - destruct (JsObject.get (activeUsers st) sid) as [sender|] eqn:E.
    + rewrite (proj2 (on_typing_registered _ _ _ E)). simpl.
      intros [H|[]]; discriminate.
    + rewrite (proj2 (on_typing_unregistered _ _ E)). simpl. tauto.
  - destruct (JsObject.get (activeUsers st) sid) as [user|] eqn:E.
    + rewrite (on_disconnect_registered _ _ _ E). simpl.
      intros [H|[H|[]]]; try discriminate. inversion H. auto.
    + rewrite (on_disconnect_unregistered _ _ E). simpl. tauto.
Qed.

(** ** send_message *)

(** C1.  When the socket's id is registered, [send_message] appends exactly
    one message to the log, built from the payload's content, the id and
    username of the sender's session, chat 'group-1', type 'text' and status
    'delivered'; it then emits that message as [new_message] to all, and
    after it a [typing_status] with the sender's id and [isTyping: false] to
    all, so that every connected client, the sender included, receives these
    two events in this order. *)
Theorem send_message_registered_appends_and_broadcasts :
  forall st sid sender payload date_now date_iso,
    JsObject.get (activeUsers st) sid = Some sender ->
    let r := on_send_message sid payload date_now date_iso st in
    exists m,
      messageHistory (state_of r) = messageHistory st ++ [m] /\
      activeUsers (state_of r) = activeUsers st /\
      Message.content m = Payload.content payload /\
      Message.senderId m = Session.id sender /\
      Message.senderName m = Session.username sender /\
      Message.chatId m = "group-1" /\
      Message.type m = "text" /\
      Message.status m = "delivered" /\
      output_of r =
        [Emit ToAll (new_message m);
         Emit ToAll (typing_status (Session.id sender) None false)] /\
      forall connected c,
        In c connected ->
        inbox c (map (pair connected) (output_of r)) =
          [new_message m; typing_status (Session.id sender) None false].
Proof.
  intros st sid sender payload date_now date_iso Hget r. subst r.
  rewrite (on_send_message_registered _ _ _ _ _ _ Hget). cbv zeta.
  eexists. unfold state_of, output_of. simpl fst. simpl snd.
  repeat (split; [reflexivity|]).
  intros connected c Hin. unfold inbox. cbn [flat_map map fst snd app].
  rewrite !received_all by assumption. reflexivity.
Qed.

Lemma send_message_registered_witness :
  JsObject.get
    (activeUsers (state_of (on_register_user "A" (Some "alice") init))) "A"
  = Some (Session.mk "A" "alice" "online") /\
  exists m,
    messageHistory
      (state_of (on_send_message "A" (Payload.mk "hi") 1700000000000
                   "2023-11-14T22:13:20.000Z"
                   (state_of (on_register_user "A" (Some "alice") init))))
    = [m] /\ Message.content m = "hi" /\ Message.senderName m = "alice".
Proof.
  split; [reflexivity|].
  destruct (send_message_registered_appends_and_broadcasts
              (state_of (on_register_user "A" (Some "alice") init)) "A"
              (Session.mk "A" "alice" "online") (Payload.mk "hi")
              1700000000000 "2023-11-14T22:13:20.000Z" eq_refl)
    as [m [Hlog [_ [Hc [_ [Hn _]]]]]].
  exists m. repeat split; assumption.
Defined.

(** C4.  When the socket's id is not registered, [send_message] emits one
    [system_error] to the sender's socket and nothing else, leaves the log
    and the registry as they were, and no other client receives anything. *)
Theorem send_message_unregistered_rejected :
  forall st sid payload date_now date_iso,
    JsObject.get (activeUsers st) sid = None ->
    let r := on_send_message sid payload date_now date_iso st in
    state_of r = st /\
    messageHistory (state_of r) = messageHistory st /\
    List.length (messageHistory (state_of r)) =
      List.length (messageHistory st) /\
    activeUsers (state_of r) = activeUsers st /\
    output_of r =
      [Emit (ToSocket sid)
            (system_error "Authentication failed. Please refresh.")] /\
    forall connected c,
      c <> sid -> inbox c (map (pair connected) (output_of r)) = [].
Proof.
  intros st sid payload date_now date_iso Hget r. subst r.
  rewrite (on_send_message_unregistered _ _ _ _ _ Hget).
  unfold state_of, output_of. simpl fst. simpl snd.
  repeat (split; [reflexivity|]).
  intros connected c Hne. unfold inbox. cbn [flat_map map fst snd app].
  now rewrite received_socket_other.
Qed.

Lemma send_message_unregistered_witness :
  JsObject.get (activeUsers init) "A" = None /\
  state_of (on_send_message "A" (Payload.mk "hi") 1700000000000
              "2023-11-14T22:13:20.000Z" init) = init /\
  output_of (on_send_message "A" (Payload.mk "hi") 1700000000000
               "2023-11-14T22:13:20.000Z" init) =
    [Emit (ToSocket "A")
          (system_error "Authentication failed. Please refresh.")].
Proof.
  split; [reflexivity|].
  destruct (send_message_unregistered_rejected init "A" (Payload.mk "hi")
              1700000000000 "2023-11-14T22:13:20.000Z" eq_refl)
    as [Hst [_ [_ [_ [Hout _]]]]].
  split; assumption.
Defined.

(** ** register_user *)

(** C2.  For a non-empty username, [register_user] stores the session
    [{id: socket id, username, status: 'online'}] under the socket id, and
    emits in this order: [user_registered] with the socket id and the whole
    log to the sender's socket; [user_joined] with id and username to all;
    [active_users] to all, carrying the values of the registry as it is
    after the store, the new session among them. *)
Theorem register_user_nonempty_creates_session :
  forall st sid u,
    u <> "" ->
    let r := on_register_user sid (Some u) st in
    let session := Session.mk sid u "online" in
    activeUsers (state_of r) = JsObject.set (activeUsers st) sid session /\
    JsObject.get (activeUsers (state_of r)) sid = Some session /\
    messageHistory (state_of r) = messageHistory st /\
    output_of r =
      [Emit (ToSocket sid) (user_registered sid (messageHistory st));
       Emit ToAll (user_joined sid u);
       Emit ToAll
         (active_users (JsObject.values (activeUsers (state_of r))))] /\
    In session (JsObject.values (activeUsers (state_of r))) /\
    (forall s,
        In s (JsObject.values (activeUsers (state_of r))) <->
        exists k, In (k, s) (activeUsers (state_of r))) /\
    forall connected,
      (In sid connected ->
       inbox sid (map (pair connected) (output_of r)) =
         [user_registered sid (messageHistory st);
          user_joined sid u;
          active_users (JsObject.values (activeUsers (state_of r)))]) /\
      (forall c,
          In c connected -> c <> sid ->
          inbox c (map (pair connected) (output_of r)) =
            [user_joined sid u;
             active_users (JsObject.values (activeUsers (state_of r)))]).
Proof.
  intros st sid u Hne r session. subst r session.
  rewrite (on_register_user_nonempty _ _ _ Hne). cbv zeta.
  unfold state_of, output_of. simpl fst. simpl snd. simpl activeUsers.
  simpl messageHistory.
  split; [reflexivity|].
  split; [apply get_set_same|].
  split; [reflexivity|].
  split; [reflexivity|].
  split; [apply In_values; exists sid; apply get_In, get_set_same|].
  split; [intros s; apply In_values|].
  intros connected. split.
  - intros Hin. unfold inbox. cbn [flat_map map fst snd app].
    rewrite !received_all by assumption.
    unfold received. simpl recipients.
    assert (E : existsb (String.eqb sid) (filter (String.eqb sid) connected)
                = true).
    { apply existsb_eqb_In. apply filter_In. split; auto.
      apply String.eqb_refl. }
    rewrite E. reflexivity.
  - intros c Hin Hne'. unfold inbox. cbn [flat_map map fst snd app].
    rewrite !received_all by assumption.
    rewrite received_socket_other by assumption. reflexivity.
Qed.

Lemma register_user_nonempty_witness :
  "alice" <> "" /\
  JsObject.get
    (activeUsers (state_of (on_register_user "A" (Some "alice") init))) "A"
  = Some (Session.mk "A" "alice" "online") /\
  output_of (on_register_user "A" (Some "alice") init) =
    [Emit (ToSocket "A") (user_registered "A" []);
     Emit ToAll (user_joined "A" "alice");
     Emit ToAll (active_users [Session.mk "A" "alice" "online"])].
Proof.
  assert (Hne : "alice" <> "") by discriminate.
  split; [exact Hne|].
  destruct (register_user_nonempty_creates_session init "A" "alice" Hne)
    as [_ [Hget [_ [Hout _]]]].
  split; [exact Hget | exact Hout].
Defined.

(** C7, as the handlers have it.  For a missing or empty username,
    [register_user] creates no session: it emits a [system_error] to the
    sender's socket and then disconnects that socket with the close flag
    set, never a [user_joined].  On a socket without a session this is all:
    the state is the one before and no [active_users] is emitted.  On a
    socket that has a session the disconnect runs the [disconnect] listener
    before the handler returns: the session is deleted (other entries and
    the log stay), and [user_left] with the socket id and [active_users]
    without it are emitted to all. *)
Theorem register_user_empty_rejected :
  forall st sid username,
    reachable st ->
    username = None \/ username = Some "" ->
    let r := on_register_user sid username st in
    JsObject.get (activeUsers (state_of r)) sid = None /\
    (forall k, k <> sid ->
       JsObject.get (activeUsers (state_of r)) k =
       JsObject.get (activeUsers st) k) /\
    messageHistory (state_of r) = messageHistory st /\
    (forall to ev,
        In (Emit to ev) (output_of r) -> forall id u, ev <> user_joined id u) /\
    match JsObject.get (activeUsers st) sid with
    | None =>
        state_of r = st /\
        output_of r =
          [Emit (ToSocket sid) (system_error "Username cannot be empty.");
           Disconnect sid true]
    | Some _ =>
        activeUsers (state_of r) = JsObject.delete (activeUsers st) sid /\
        output_of r =
          [Emit (ToSocket sid) (system_error "Username cannot be empty.");
           Disconnect sid true;
           Emit ToAll (user_left sid);
           Emit ToAll
             (active_users (JsObject.values (activeUsers (state_of r))))]
    end.
Proof.
  intros st sid username Hr Hemp r. subst r.
  destruct (JsObject.get (activeUsers st) sid) as [user|] eqn:E.
  - rewrite (on_register_user_empty_registered _ _ _ _ Hemp E). cbv zeta.
    rewrite (reachable_session_id _ _ _ Hr E).
    unfold state_of, output_of. cbn [fst snd activeUsers messageHistory].
    split; [apply get_delete_same|].
    split; [intros k Hk; apply get_delete_other; congruence|].
    split; [reflexivity|].
    split; [|split; reflexivity].
    intros to ev [H|[H|[H|[H|[]]]]] id u; inversion H; subst; discriminate.
  - rewrite (on_register_user_empty_unregistered _ _ _ Hemp E).
    unfold state_of, output_of. cbn [fst snd].
    split; [exact E|]. split; [reflexivity|]. split; [reflexivity|].
    split; [|split; reflexivity].
    intros to ev [H|[H|[]]] id u; inversion H; subst; discriminate.
Qed.

Lemma register_user_empty_witness :
  reachable
    (fst (run init [("A", register_user (Some "alice"));
                    ("B", register_user (Some "bob"))])) /\
  (Some "" = None \/ Some "" = Some "") /\
  output_of
    (on_register_user "B" (Some "")
       (fst (run init [("A", register_user (Some "alice"));
                       ("B", register_user (Some "bob"))]))) =
    [Emit (ToSocket "B") (system_error "Username cannot be empty.");
     Disconnect "B" true;
     Emit ToAll (user_left "B");
     Emit ToAll (active_users [Session.mk "A" "alice" "online"])].
Proof.
  assert (Hr : reachable
                 (fst (run init [("A", register_user (Some "alice"));
                                 ("B", register_user (Some "bob"))]))).
  { exact (reachable_step _ "B" (register_user (Some "bob"))
             (reachable_step _ "A" (register_user (Some "alice"))
                reachable_init)). }
  assert (H : Some "" = None \/ Some "" = Some "") by (right; reflexivity).
  split; [exact Hr|]. split; [exact H|].
  pose proof (register_user_empty_rejected _ "B" (Some "") Hr H) as HT.
  simpl in HT. destruct HT as [_ [_ [_ [_ [_ Hout]]]]]. exact Hout.
Defined.

(** C7 as stated fails on a socket that already has a session: the rejected
    registration changes the registry and an [active_users] is emitted. *)
Lemma register_user_empty_on_registered_socket :
  JsObject.get
    (activeUsers
       (fst (run init [("A", register_user (Some "alice"));
                       ("B", register_user (Some "bob"))]))) "B"
  = Some (Session.mk "B" "bob" "online") /\
  JsObject.get
    (activeUsers
       (state_of
          (on_register_user "B" (Some "")
             (fst (run init [("A", register_user (Some "alice"));
                             ("B", register_user (Some "bob"))]))))) "B"
  = None /\
  In (Emit ToAll (active_users [Session.mk "A" "alice" "online"]))
     (output_of
        (on_register_user "B" (Some "")
           (fst (run init [("A", register_user (Some "alice"));
                           ("B", register_user (Some "bob"))])))) /\
  ~ (forall st sid username,
        reachable st ->
        username = None \/ username = Some "" ->
        activeUsers (state_of (on_register_user sid username st)) =
          activeUsers st /\
        forall to users,
          ~ In (Emit to (active_users users))
               (output_of (on_register_user sid username st))).
Proof.
  split; [reflexivity|]. split; [reflexivity|].
  split; [simpl; right; right; right; left; reflexivity|].
  intros H.
  destruct (H (fst (run init [("A", register_user (Some "alice"));
                              ("B", register_user (Some "bob"))]))
              "B" (Some "")
              (reachable_step _ "B" (register_user (Some "bob"))
                 (reachable_step _ "A" (register_user (Some "alice"))
                    reachable_init))
              (or_intror eq_refl)) as [Hreg _].
  discriminate Hreg.
Qed.

(** ** disconnect *)

(** C3.  In a reachable state, when the closing socket's id is registered,
    [disconnect] deletes that entry (other entries stay), emits [user_left]
    carrying the bare socket id once to all, then [active_users] to all with
    the values of the registry after the deletion, none of which has that
    id; when the id is not registered the state is unchanged and nothing is
    emitted. *)
Theorem disconnect_removes_session_and_notifies :
  forall st sid,
    reachable st ->
    let r := on_disconnect sid st in
    match JsObject.get (activeUsers st) sid with
    | Some _ =>
        activeUsers (state_of r) = JsObject.delete (activeUsers st) sid /\
        JsObject.get (activeUsers (state_of r)) sid = None /\
        (forall k, k <> sid ->
           JsObject.get (activeUsers (state_of r)) k =
           JsObject.get (activeUsers st) k) /\
        messageHistory (state_of r) = messageHistory st /\
        output_of r =
          [Emit ToAll (user_left sid);
           Emit ToAll
             (active_users (JsObject.values (activeUsers (state_of r))))] /\
        (forall s,
            In s (JsObject.values (activeUsers (state_of r))) ->
            Session.id s <> sid) /\
        (forall s,
            In s (JsObject.values (activeUsers (state_of r))) <->
            exists k, k <> sid /\ JsObject.get (activeUsers st) k = Some s)
    | None => r = (tt, st, [])
    end.
Proof.
  intros st sid Hr r. subst r.
  pose proof (reachable_registry_ok _ Hr) as [Hnd Hall].
  destruct (JsObject.get (activeUsers st) sid) as [user|] eqn:E.
  - rewrite (on_disconnect_registered _ _ _ E). cbv zeta.
    unfold state_of, output_of. simpl fst. simpl snd. simpl activeUsers.
    simpl messageHistory.
    rewrite (reachable_session_id _ _ _ Hr E).
    split; [reflexivity|].
    split; [apply get_delete_same|].
    split; [intros k Hk; apply get_delete_other; congruence|].
    split; [reflexivity|].
    split; [reflexivity|].
    split.
    + intros s Hin. apply In_values in Hin. destruct Hin as [k Hin].
      apply In_delete in Hin. destruct Hin as [Hk Hin].
      destruct (Hall _ _ Hin) as [Hid _]. congruence.
    + intros s. rewrite In_values. split.
      * intros [k Hin]. apply In_delete in Hin. destruct Hin as [Hk Hin].
        exists k. split; auto. now apply In_get.
      * intros [k [Hk Hget]]. exists k. apply get_In.
        rewrite get_delete_other by congruence. exact Hget.
  - now apply on_disconnect_unregistered.
Qed.

Lemma disconnect_witness :
  reachable
    (fst (run init [("A", register_user (Some "alice"));
                    ("B", register_user (Some "bob"))])) /\
  output_of
    (on_disconnect "B"
       (fst (run init [("A", register_user (Some "alice"));
                       ("B", register_user (Some "bob"))]))) =
    [Emit ToAll (user_left "B");
     Emit ToAll (active_users [Session.mk "A" "alice" "online"])].
Proof.
  assert (Hr : reachable
                 (fst (run init [("A", register_user (Some "alice"));
                                 ("B", register_user (Some "bob"))]))).
  { exact (reachable_step _ "B" (register_user (Some "bob"))
             (reachable_step _ "A" (register_user (Some "alice"))
                reachable_init)). }
  split; [exact Hr|].
  pose proof (disconnect_removes_session_and_notifies _ "B" Hr) as H.
  simpl in H. destruct H as [_ [_ [_ [_ [Hout _]]]]]. exact Hout.
Defined.

(** ** typing_start and typing_stop *)

(** C6.  In a reachable state, [typing_start] from a registered socket [a]
    emits [typing_status] with [a]'s id, its session's username and
    [isTyping: true] to all except [a]: every other connected client
    receives it and [a] receives nothing; [typing_stop] does the same with
    [isTyping: false].  Neither changes the state. *)
Theorem typing_broadcast_excludes_sender :
  forall st a sender,
    reachable st ->
    JsObject.get (activeUsers st) a = Some sender ->
    let status isTyping :=
      typing_status a (Some (Session.username sender)) isTyping in
    on_typing_start a st = (tt, st, [Emit (ToAllExcept a) (status true)]) /\
    on_typing_stop a st = (tt, st, [Emit (ToAllExcept a) (status false)]) /\
    forall connected,
      inbox a (map (pair connected) (output_of (on_typing_start a st))) = [] /\
      inbox a (map (pair connected) (output_of (on_typing_stop a st))) = [] /\
      forall c,
        In c connected -> c <> a ->
        inbox c (map (pair connected) (output_of (on_typing_start a st))) =
          [status true] /\
        inbox c (map (pair connected) (output_of (on_typing_stop a st))) =
          [status false].
Proof.
  intros st a sender Hr Hget status. subst status.
  destruct (on_typing_registered _ _ _ Hget) as [Hstart Hstop].
  rewrite (reachable_session_id _ _ _ Hr Hget) in Hstart, Hstop.
  rewrite Hstart, Hstop. unfold output_of, inbox.
  cbn [flat_map map fst snd app].
  split; [reflexivity|]. split; [reflexivity|].
  intros connected. rewrite !received_except_self.
  split; [reflexivity|]. split; [reflexivity|].
  intros c Hin Hne. rewrite !received_except_other by assumption.
  split; reflexivity.
Qed.

Lemma typing_broadcast_witness :
  reachable (state_of (handle "A" (register_user (Some "alice")) init)) /\
  JsObject.get
    (activeUsers (state_of (handle "A" (register_user (Some "alice")) init)))
    "A" = Some (Session.mk "A" "alice" "online") /\
  output_of
    (on_typing_start "A"
       (state_of (handle "A" (register_user (Some "alice")) init))) =
    [Emit (ToAllExcept "A") (typing_status "A" (Some "alice") true)].
Proof.
  assert (Hr : reachable
                 (state_of (handle "A" (register_user (Some "alice")) init)))
    by exact (reachable_step _ "A" (register_user (Some "alice"))
                reachable_init).
  split; [exact Hr|]. split; [reflexivity|].
  destruct (typing_broadcast_excludes_sender _ "A"
              (Session.mk "A" "alice" "online") Hr eq_refl) as [Hstart _].
  rewrite Hstart. reflexivity.
Defined.

(** C8.  When the socket's id is not registered, [typing_start] and
    [typing_stop] emit nothing at all and return the state they were given. *)
Theorem typing_unregistered_ignored :
  forall st sid,
    JsObject.get (activeUsers st) sid = None ->
    on_typing_start sid st = (tt, st, []) /\
    on_typing_stop sid st = (tt, st, []).
Proof. intros st sid H. now apply on_typing_unregistered. Qed.

Lemma typing_unregistered_witness :
  JsObject.get (activeUsers init) "A" = None /\
  on_typing_start "A" init = (tt, init, []) /\
  on_typing_stop "A" init = (tt, init, []).
Proof.
  split; [reflexivity|].
  exact (typing_unregistered_ignored init "A" eq_refl).
Defined.

(** ** Order of broadcasts *)

Lemma new_messages_app out1 out2 :
  new_messages (out1 ++ out2) = new_messages out1 ++ new_messages out2.
Proof.
  induction out1 as [|e out1 IH]; simpl; auto.
  destruct e as [to ev|sid close]; auto.
  destruct ev; simpl; auto. now rewrite IH.
Qed.

(** Within one handler the log grows by exactly the messages broadcast, and
    a [new_message] is only ever sent to all. *)
Lemma handle_log_and_broadcast sid e st :
  messageHistory (state_of (handle sid e st)) =
    messageHistory st ++ new_messages (output_of (handle sid e st)) /\
  forall to m,
    In (Emit to (new_message m)) (output_of (handle sid e st)) -> to = ToAll.
Proof.
  destruct e as [username|payload date_now date_iso| | |]; simpl.
  - destruct (username_cases username) as [Hemp|[u [-> Hne]]].
    + rejected_cases st sid Hemp; simpl; rewrite app_nil_r; split; auto.
      * intros to m [H|[H|[H|[H|[]]]]]; discriminate.
      * intros to m [H|[H|[]]]; discriminate.
    + rewrite (on_register_user_nonempty _ _ _ Hne). simpl.
      rewrite app_nil_r. split; auto.
      intros to m [H|[H|[H|[]]]]; discriminate.
  - destruct (JsObject.get (activeUsers st) sid) as [sender|] eqn:E.
    + rewrite (on_send_message_registered _ _ _ _ _ _ E). simpl.
      split; auto.
      intros to m [H|[H|[]]]; try discriminate. now inversion H.
    + rewrite (on_send_message_unregistered _ _ _ _ _ E). simpl.
      rewrite app_nil_r. split; auto.
      intros to m [H|[]]; discriminate.
  - destruct (JsObject.get (activeUsers st) sid) as [sender|] eqn:E.
    + rewrite (proj1 (on_typing_registered _ _ _ E)). simpl.
      rewrite app_nil_r. split; auto.
      intros to m [H|[]]; discriminate.
    + rewrite (proj1 (on_typing_unregistered _ _ E)). simpl.
      rewrite app_nil_r. split; auto. intros to m [].
  - destruct (JsObject.get (activeUsers st) sid) as [sender|] eqn:E.
    + rewrite (proj2 (on_typing_registered _ _ _ E)). simpl.
      rewrite app_nil_r. split; auto.
      intros to m [H|[]]; discriminate.
    + rewrite (proj2 (on_typing_unregistered _ _ E)). simpl.
      rewrite app_nil_r. split; auto. intros to m [].
  - destruct (JsObject.get (activeUsers st) sid) as [user|] eqn:E.
    + rewrite (on_disconnect_registered _ _ _ E). simpl.
      rewrite app_nil_r. split; auto.
      intros to m [H|[H|[]]]; discriminate.
    + rewrite (on_disconnect_unregistered _ _ E). simpl.
      rewrite app_nil_r. split; auto. intros to m [].
Qed.

Lemma run_cons st sid e trace :
  run st ((sid, e) :: trace) =
    (fst (run (state_of (handle sid e st)) trace),
     output_of (handle sid e st)
       ++ snd (run (state_of (handle sid e st)) trace)).
Proof.
  simpl. now destruct (run (state_of (handle sid e st)) trace).
Qed.

Lemma run_app st t1 t2 :
  run st (t1 ++ t2) =
    (fst (run (fst (run st t1)) t2),
     snd (run st t1) ++ snd (run (fst (run st t1)) t2)).
Proof.
  revert st. induction t1 as [|[sid e] t1 IH]; intros st.
  - simpl. now destruct (run st t2).
  - rewrite <- app_comm_cons, !run_cons, IH. simpl. now rewrite app_assoc.
Qed.

Lemma run_log_and_broadcast st trace :
  messageHistory (fst (run st trace)) =
    messageHistory st ++ new_messages (snd (run st trace)) /\
  forall to m, In (Emit to (new_message m)) (snd (run st trace)) -> to = ToAll.
Proof.
  revert st. induction trace as [|[sid e] trace IH]; intros st.
  - simpl. rewrite app_nil_r. split; auto. intros to m [].
  - rewrite run_cons. simpl fst. simpl snd.
    destruct (IH (state_of (handle sid e st))) as [IHlog IHall].
    destruct (handle_log_and_broadcast sid e st) as [Hlog Hall].
    split.
    + rewrite IHlog, Hlog, new_messages_app. now rewrite app_assoc.
    + intros to m Hin. apply in_app_or in Hin. destruct Hin; eauto.
Qed.

(** A client that is connected at every call receives the broadcast
    messages in the order of the calls. *)
Lemma inbox_new_messages c out :
  (forall to m, In (Emit to (new_message m)) out -> to = ToAll) ->
  forall conns,
    List.length conns = List.length out -> Forall (In c) conns ->
    messages_of (inbox c (combine conns out)) = new_messages out.
Proof.
  assert (Happ : forall l1 l2,
             messages_of (l1 ++ l2) = messages_of l1 ++ messages_of l2).
  { induction l1 as [|ev l1 IHl]; intros l2; simpl; auto.
    destruct ev; simpl; auto. now rewrite IHl. }
  induction out as [|e out IH]; intros Hall conns Hlen Hconn.
  - destruct conns; reflexivity.
  - destruct conns as [|connected conns]; [discriminate|].
    inversion Hconn as [|? ? Hc Hconn']; subst.
    unfold inbox in *. cbn [combine flat_map fst snd]. rewrite Happ.
    rewrite IH; auto.
    2:{ intros to m Hin. apply (Hall to m). now right. }
    destruct e as [to ev|sid close]; [|reflexivity].
    destruct ev; simpl new_messages;
      try (unfold received; destruct (existsb _ _); reflexivity).
    rewrite (Hall to message (or_introl eq_refl)).
    now rewrite received_all.
Qed.

(** C5.  Over any sequence of events from any sockets, starting in any
    state, the messages of the [new_message] emits, in emission order, are
    exactly what the run appended to the log, in log order; this holds at
    every point between two events of the sequence, so a message is emitted
    before any later event is handled; every such emit goes to all, and a
    client connected at each call receives the messages in log order. *)
Theorem new_message_order_is_log_order :
  forall st trace,
    messageHistory (fst (run st trace)) =
      messageHistory st ++ new_messages (snd (run st trace)) /\
    (forall t1 t2,
        trace = t1 ++ t2 ->
        messageHistory (fst (run st t1)) =
          messageHistory st ++ new_messages (snd (run st t1)) /\
        snd (run st trace) =
          snd (run st t1) ++ snd (run (fst (run st t1)) t2)) /\
    (forall to m,
        In (Emit to (new_message m)) (snd (run st trace)) -> to = ToAll) /\
    (forall c conns,
        List.length conns = List.length (snd (run st trace)) ->
        Forall (In c) conns ->
        messages_of (inbox c (combine conns (snd (run st trace)))) =
          new_messages (snd (run st trace))).
Proof.
  intros st trace.
  destruct (run_log_and_broadcast st trace) as [Hlog Hall].
  split; [exact Hlog|]. split.
  - intros t1 t2 ->. split.
    + apply run_log_and_broadcast.
    + now rewrite run_app.
  - split; [exact Hall|].
    intros c conns Hlen Hconn. now apply inbox_new_messages.
Qed.

Lemma new_message_order_witness :
  messageHistory
    (fst (run init
            [("A", register_user (Some "alice"));
             ("B", register_user (Some "bob"));
             ("A", send_message (Payload.mk "hi") 1 "t1");
             ("B", send_message (Payload.mk "yo") 2 "t2")])) =
  messageHistory init ++
  new_messages
    (snd (run init
            [("A", register_user (Some "alice"));
             ("B", register_user (Some "bob"));
             ("A", send_message (Payload.mk "hi") 1 "t1");
             ("B", send_message (Payload.mk "yo") 2 "t2")])).
Proof.
  exact (proj1 (new_message_order_is_log_order init
                  [("A", register_user (Some "alice"));
                   ("B", register_user (Some "bob"));
                   ("A", send_message (Payload.mk "hi") 1 "t1");
                   ("B", send_message (Payload.mk "yo") 2 "t2")])).
Defined.

(** ** Usernames held by the registry *)

Lemma username_of_set st sid sid' u :
  username_of
    (mkState (JsObject.set (activeUsers st) sid' (Session.mk sid' u "online"))
             (messageHistory st) (JsObject.set (socket_username st) sid' u))
    sid =
  if String.eqb sid' sid then Some u else username_of st sid.
Proof.
  unfold username_of. simpl activeUsers.
  destruct (String.eqb sid' sid) eqn:E.
  - apply String.eqb_eq in E. subst. now rewrite get_set_same.
  - apply String.eqb_neq in E. now rewrite get_set_other.
Qed.

Lemma username_of_on_disconnect st sid sid' :
  username_of (state_of (on_disconnect sid' st)) sid =
  if String.eqb sid' sid then None else username_of st sid.
Proof.
  unfold username_of.
  destruct (JsObject.get (activeUsers st) sid') as [user|] eqn:E.
  - rewrite (on_disconnect_registered _ _ _ E). unfold state_of. simpl.
    destruct (String.eqb sid' sid) eqn:E'.
    + apply String.eqb_eq in E'. subst sid'. now rewrite get_delete_same.
    + apply String.eqb_neq in E'. now rewrite get_delete_other.
  - rewrite (on_disconnect_unregistered _ _ E). unfold state_of. simpl.
    destruct (String.eqb sid' sid) eqn:E'; auto.
    apply String.eqb_eq in E'. subst sid'. now rewrite E.
Qed.

(** C9, as the handlers have it.  The username held for a socket changes
    only through [register_user] with a non-empty username on that same
    socket, which replaces it by the new one; [send_message],
    [typing_start], [typing_stop] and every event of another socket leave
    it as it is; [disconnect] of the socket itself, and a rejected
    [register_user] on it (which disconnects it), remove the session. *)
Theorem username_changes_only_by_own_register :
  forall st sid sid' e u,
    username_of st sid = Some u ->
    let st' := state_of (handle sid' e st) in
    (sid' <> sid \/
     (e <> disconnect /\ forall username, e <> register_user username) ->
     username_of st' sid = Some u) /\
    (forall u',
        u' <> "" -> e = register_user (Some u') -> sid' = sid ->
        username_of st' sid = Some u') /\
    (e = disconnect \/ e = register_user None \/ e = register_user (Some "") ->
     sid' = sid -> username_of st' sid = None).
Proof.
  intros st sid sid' e u Hu st'. subst st'.
  destruct e as [username|payload date_now date_iso| | |]; simpl handle.
  - destruct (username_cases username) as [Hemp|[u0 [-> Hne]]].
    + assert (Hst : state_of (on_register_user sid' username st) =
                    state_of (on_disconnect sid' st))
        by now rewrite (on_register_user_empty _ _ _ Hemp).
      rewrite Hst, username_of_on_disconnect.
      split; [|split].
      * intros [Hsid|[_ Hreg]].
        -- apply String.eqb_neq in Hsid. now rewrite Hsid.
        -- exfalso. now apply (Hreg username).
      * intros u' Hne' Heq. destruct Hemp as [->| ->]; [discriminate|].
        inversion Heq. congruence.
      * intros _ ->. now rewrite String.eqb_refl.
    + rewrite (on_register_user_nonempty _ _ _ Hne). unfold state_of.
      cbn [fst snd]. rewrite username_of_set.
      split; [|split].
      * intros [Hsid|[_ Hreg]].
        -- apply String.eqb_neq in Hsid. now rewrite Hsid.
        -- exfalso. now apply (Hreg (Some u0)).
      * intros u' _ Heq ->. inversion Heq. now rewrite String.eqb_refl.
      * intros [H|[H|H]] _; try discriminate. inversion H. congruence.
  - assert (Hst : state_of (on_send_message sid' payload date_now date_iso st)
                  = st \/
                  activeUsers
                    (state_of
                       (on_send_message sid' payload date_now date_iso st))
                  = activeUsers st).
    { destruct (JsObject.get (activeUsers st) sid') as [sender|] eqn:E.
      - right. now rewrite (on_send_message_registered _ _ _ _ _ _ E).
      - left. now rewrite (on_send_message_unregistered _ _ _ _ _ E). }
    split; [|split; [discriminate | intros [H|[H|H]]; discriminate]].
    intros _. unfold username_of in *. destruct Hst as [-> | ->]; exact Hu.
  - assert (Hst : state_of (on_typing_start sid' st) = st).
    { destruct (JsObject.get (activeUsers st) sid') as [sender|] eqn:E.
      - now rewrite (proj1 (on_typing_registered _ _ _ E)).
      - now rewrite (proj1 (on_typing_unregistered _ _ E)). }
    rewrite Hst.
    split; [auto|split; [discriminate | intros [H|[H|H]]; discriminate]].
  - assert (Hst : state_of (on_typing_stop sid' st) = st).
    { destruct (JsObject.get (activeUsers st) sid') as [sender|] eqn:E.
      - now rewrite (proj2 (on_typing_registered _ _ _ E)).
      - now rewrite (proj2 (on_typing_unregistered _ _ E)). }
    rewrite Hst.
    split; [auto|split; [discriminate | intros [H|[H|H]]; discriminate]].
  - rewrite username_of_on_disconnect. split; [|split; [discriminate|]].
    + intros [Hsid|[Hd _]]; [|congruence].
      apply String.eqb_neq in Hsid. now rewrite Hsid.
    + intros _ ->. now rewrite String.eqb_refl.
Qed.

Lemma username_changes_witness :
  username_of (state_of (handle "A" (register_user (Some "alice")) init)) "A"
  = Some "alice" /\
  username_of
    (state_of
       (handle "A" (send_message (Payload.mk "hi") 1 "t1")
          (state_of (handle "A" (register_user (Some "alice")) init)))) "A"
  = Some "alice".
Proof.
  split; [reflexivity|].
  destruct (username_changes_only_by_own_register
              (state_of (handle "A" (register_user (Some "alice")) init))
              "A" "A" (send_message (Payload.mk "hi") 1 "t1") "alice"
              eq_refl) as [Hkeep _].
  apply Hkeep. right. split; [discriminate|]. intros username. discriminate.
Defined.

(** C9 as stated fails: a second [register_user] on the same socket
    replaces the username the registry holds for it. *)
Lemma second_register_user_replaces_username :
  username_of (state_of (handle "A" (register_user (Some "alice")) init)) "A"
  = Some "alice" /\
  username_of
    (state_of
       (handle "A" (register_user (Some "bob"))
          (state_of (handle "A" (register_user (Some "alice")) init)))) "A"
  = Some "bob" /\
  ~ (forall st sid e u,
        reachable st ->
        username_of st sid = Some u ->
        e <> disconnect ->
        username_of (state_of (handle sid e st)) sid = Some u).
Proof.
  split; [reflexivity|]. split; [reflexivity|].
  intros H.
  specialize (H (state_of (handle "A" (register_user (Some "alice")) init))
                "A" (register_user (Some "bob")) "alice"
                (reachable_step _ _ _ reachable_init) eq_refl).
  assert (Hd : register_user (Some "bob") <> disconnect) by discriminate.
  specialize (H Hd). discriminate H.
Qed.

(** ** Reachable registries *)

(** C10.  In every state reached from the initial one by any sequence of
    events, each registry entry under key [k] is a record with id [k], a
    non-empty username and status 'online'; keys are pairwise distinct, so a
    socket id has at most one session; and every [active_users] emit of the
    next handler carries only such records, each of them registered. *)
Theorem reachable_registry_invariant :
  forall st,
    reachable st ->
    (forall k s,
        In (k, s) (activeUsers st) ->
        Session.id s = k /\ Session.username s <> "" /\
        Session.status s = "online") /\
    NoDup (JsObject.keys (activeUsers st)) /\
    (forall k s1 s2,
        In (k, s1) (activeUsers st) -> In (k, s2) (activeUsers st) ->
        s1 = s2) /\
    forall sid e to users,
      In (Emit to (active_users users)) (output_of (handle sid e st)) ->
      forall s,
        In s users ->
        session_ok (Session.id s) s /\
        JsObject.get (activeUsers (state_of (handle sid e st))) (Session.id s)
        = Some s.
Proof.
  intros st Hr. pose proof (reachable_registry_ok _ Hr) as [Hnd Hall].
  split; [exact Hall|]. split; [exact Hnd|]. split.
  - intros k s1 s2 H1 H2.
    apply (In_get _ _ _ Hnd) in H1. apply (In_get _ _ _ Hnd) in H2.
    congruence.
  - intros sid e to users Hemit s Hin.
    apply active_users_emit_is_snapshot in Hemit. destruct Hemit as [_ ->].
    pose proof (reachable_registry_ok _ (reachable_step st sid e Hr))
      as [Hnd' Hall'].
    apply In_values in Hin. destruct Hin as [k Hin].
    pose proof (Hall' _ _ Hin) as Hok.
    assert (Hk : Session.id s = k) by apply Hok.
    rewrite Hk. split; [exact Hok|]. now apply In_get.
Qed.

Lemma reachable_registry_witness :
  reachable
    (fst (run init [("A", register_user (Some "alice"));
                    ("B", register_user (Some "bob"))])) /\
  NoDup
    (JsObject.keys
       (activeUsers
          (fst (run init [("A", register_user (Some "alice"));
                          ("B", register_user (Some "bob"))])))).
Proof.
  assert (Hr : reachable
                 (fst (run init [("A", register_user (Some "alice"));
                                 ("B", register_user (Some "bob"))]))).
  { exact (reachable_step _ "B" (register_user (Some "bob"))
             (reachable_step _ "A" (register_user (Some "alice"))
                reachable_init)). }
  split; [exact Hr|].
  exact (proj1 (proj2 (reachable_registry_invariant _ Hr))).
Defined.

(** ** The scenario of two clients

    "alice" on socket A and "bob" on socket B register in this order, A sends
    "hi", B disconnects. *)
Example alice_bob_scenario :
  run init
    [("A", register_user (Some "alice"));
     ("B", register_user (Some "bob"));
     ("A", send_message (Payload.mk "hi") 1700000000000
             "2023-11-14T22:13:20.000Z");
     ("B", disconnect)] =
  let alice := Session.mk "A" "alice" "online" in
  let bob := Session.mk "B" "bob" "online" in
  let hi := Message.mk "1700000000000" "group-1" "A" "alice" "hi" "text"
                       "2023-11-14T22:13:20.000Z" "delivered" in
  (mkState [("A", alice)] [hi] [("A", "alice"); ("B", "bob")],
   [Emit (ToSocket "A") (user_registered "A" []);
    Emit ToAll (user_joined "A" "alice");
    Emit ToAll (active_users [alice]);
    Emit (ToSocket "B") (user_registered "B" []);
    Emit ToAll (user_joined "B" "bob");
    Emit ToAll (active_users [alice; bob]);
    Emit ToAll (new_message hi);
    Emit ToAll (typing_status "A" None false);
    Emit ToAll (user_left "B");
    Emit ToAll (active_users [alice])]).
Proof. reflexivity. Qed.

(** * Further properties of the handlers *)

(** ** The log *)

Lemma handle_log_cases sid e st :
  messageHistory (state_of (handle sid e st)) = messageHistory st \/
  exists payload date_now date_iso sender,
    e = send_message payload date_now date_iso /\
    JsObject.get (activeUsers st) sid = Some sender /\
    messageHistory (state_of (handle sid e st)) =
      messageHistory st ++
      [Message.mk (number_toString date_now) "group-1" (Session.id sender)
                  (Session.username sender) (Payload.content payload)
                  "text" date_iso "delivered"].
Proof.
  destruct e as [username|payload date_now date_iso| | |]; simpl handle.
  - left. destruct (username_cases username) as [Hemp|[u [-> Hne]]].
    + now rejected_cases st sid Hemp.
    + now rewrite (on_register_user_nonempty _ _ _ Hne).
  - destruct (JsObject.get (activeUsers st) sid) as [sender|] eqn:E.
    + right. exists payload, date_now, date_iso, sender.
      rewrite (on_send_message_registered _ _ _ _ _ _ E). auto.
    + left. now rewrite (on_send_message_unregistered _ _ _ _ _ E).
  - left. destruct (JsObject.get (activeUsers st) sid) as [sender|] eqn:E.
    + now rewrite (proj1 (on_typing_registered _ _ _ E)).
    + now rewrite (proj1 (on_typing_unregistered _ _ E)).
  - left. destruct (JsObject.get (activeUsers st) sid) as [sender|] eqn:E.
    + now rewrite (proj2 (on_typing_registered _ _ _ E)).
    + now rewrite (proj2 (on_typing_unregistered _ _ E)).
  - left. destruct (JsObject.get (activeUsers st) sid) as [user|] eqn:E.
    + now rewrite (on_disconnect_registered _ _ _ E).
    + now rewrite (on_disconnect_unregistered _ _ E).
Qed.

(** X1.  The log is append-only: whatever events follow, the entries a
    state's log holds stay where they are, unchanged; and a single event
    leaves the log as it is unless it is a [send_message] from a registered
    socket. *)
Theorem log_is_append_only :
  forall st,
    (forall trace,
        firstn (List.length (messageHistory st))
               (messageHistory (fst (run st trace))) = messageHistory st) /\
    (forall sid e,
        (forall payload date_now date_iso,
            e <> send_message payload date_now date_iso) \/
        JsObject.get (activeUsers st) sid = None ->
        messageHistory (state_of (handle sid e st)) = messageHistory st).
Proof.
  intros st. split.
  - intros trace. rewrite (proj1 (run_log_and_broadcast st trace)).
    rewrite firstn_app, Nat.sub_diag, firstn_all. simpl. apply app_nil_r.
  - intros sid e H.
    destruct (handle_log_cases sid e st)
      as [Hsame | [payload [n [iso [sender [He [Hget _]]]]]]]; auto.
    destruct H as [H|H]; [now elim (H payload n iso) | congruence].
Qed.

Lemma log_is_append_only_witness :
  (forall payload date_now date_iso,
      disconnect <> send_message payload date_now date_iso) /\
  messageHistory
    (state_of
       (handle "A" disconnect
          (fst (run init [("A", register_user (Some "alice"));
                          ("A", send_message (Payload.mk "hi") 1 "t1")]))))
  = messageHistory
      (fst (run init [("A", register_user (Some "alice"));
                      ("A", send_message (Payload.mk "hi") 1 "t1")])).
Proof.
  assert (H : forall payload date_now date_iso,
             disconnect <> send_message payload date_now date_iso)
    by discriminate.
  split; [exact H|].
  exact (proj2 (log_is_append_only _) "A" disconnect (or_introl H)).
Defined.

(** X2.  Every entry of a reachable log has chat id 'group-1', type 'text',
    status 'delivered', a non-empty sender name, and a message id that is
    the decimal form of an integer. *)
Theorem reachable_log_entries_well_formed :
  forall st, reachable st -> Forall message_ok (messageHistory st).
Proof.
  induction 1 as [|st sid e Hr IH].
  - constructor.
  - destruct (handle_log_cases sid e st)
      as [-> | [payload [n [iso [sender [He [Hget ->]]]]]]]; auto.
    apply Forall_app. split; auto. constructor; [|constructor].
    pose proof (reachable_registry_ok _ Hr) as [_ Hall].
    destruct (Hall _ _ (get_In _ _ _ Hget)) as [_ [Hname _]].
    unfold message_ok. simpl. repeat split; auto. now exists n.
Qed.

Lemma reachable_log_entries_witness :
  reachable
    (fst (run init [("A", register_user (Some "alice"));
                    ("A", send_message (Payload.mk "hi") 1 "t1")])) /\
  Forall message_ok
    (messageHistory
       (fst (run init [("A", register_user (Some "alice"));
                       ("A", send_message (Payload.mk "hi") 1 "t1")]))).
Proof.
  assert (Hr : reachable
                 (fst (run init [("A", register_user (Some "alice"));
                                 ("A", send_message (Payload.mk "hi") 1
                                         "t1")]))).
  { exact (reachable_step _ "A" (send_message (Payload.mk "hi") 1 "t1")
             (reachable_step _ "A" (register_user (Some "alice"))
                reachable_init)). }
  split; [exact Hr|].
  exact (reachable_log_entries_well_formed _ Hr).
Defined.

(** [toString] on an integer prints a numeral that reads back as it. *)
Lemma parse_number_toString ms : parse_number (number_toString ms) = Some ms.
Proof.
  unfold parse_number, number_toString.
  rewrite NilZero.isi.
  - simpl. now rewrite DecimalZ.of_to.
  - destruct ms; simpl; try discriminate.
    intros H. inversion H as [H']. now apply Unsigned.to_uint_nonnil in H'.
  - destruct ms; simpl; try discriminate.
    intros H. inversion H as [H']. now apply Unsigned.to_uint_nonnil in H'.
Qed.

(** X3.  A message id reads back as the clock value it was made from, so
    two accepted messages get the same id exactly when [Date.now()] read the
    same millisecond for both. *)
Theorem messageId_collides_iff_same_millisecond :
  forall st sid sender p1 n1 iso1 p2 n2 iso2,
    JsObject.get (activeUsers st) sid = Some sender ->
    exists m1 m2,
      messageHistory
        (fst (run st [(sid, send_message p1 n1 iso1);
                      (sid, send_message p2 n2 iso2)])) =
        messageHistory st ++ [m1; m2] /\
      parse_number (Message.messageId m1) = Some n1 /\
      parse_number (Message.messageId m2) = Some n2 /\
      (Message.messageId m1 = Message.messageId m2 <-> n1 = n2).
Proof.
  intros st sid sender p1 n1 iso1 p2 n2 iso2 Hget.
  rewrite !run_cons. simpl run. simpl handle. cbn [fst].
  rewrite (on_send_message_registered _ _ p1 n1 iso1 _ Hget).
  cbv zeta. unfold state_of at 2. cbn [fst snd].
  rewrite (on_send_message_registered sid sender p2 n2 iso2
             (mkState _ _ _) Hget).
  cbv zeta. unfold state_of. cbn [fst snd messageHistory].
  rewrite <- app_assoc. simpl app.
  do 2 eexists. split; [reflexivity|]. simpl.
  rewrite !parse_number_toString. repeat split; auto.
  - intros H. apply (f_equal parse_number) in H.
    rewrite !parse_number_toString in H. congruence.
  - now intros ->.
Qed.

Lemma messageId_collides_witness :
  JsObject.get
    (activeUsers (state_of (on_register_user "A" (Some "alice") init))) "A"
  = Some (Session.mk "A" "alice" "online") /\
  exists m1 m2,
    messageHistory
      (fst (run (state_of (on_register_user "A" (Some "alice") init))
              [("A", send_message (Payload.mk "hi") 7 "t1");
               ("A", send_message (Payload.mk "yo") 7 "t2")])) = [m1; m2] /\
    Message.messageId m1 = Message.messageId m2.
Proof.
  split; [reflexivity|].
  destruct (messageId_collides_iff_same_millisecond
              (state_of (on_register_user "A" (Some "alice") init)) "A"
              (Session.mk "A" "alice" "online")
              (Payload.mk "hi") 7 "t1" (Payload.mk "yo") 7 "t2" eq_refl)
    as [m1 [m2 [Hlog [_ [_ Hiff]]]]].
  exists m1, m2. split; [exact Hlog | apply Hiff; reflexivity].
Defined.

(** ** More on object operations *)

Section JsObjectMoreFacts.
Context {V : Type}.
Implicit Types (o : JsObject.t V) (k : string) (v : V).

Lemma keys_set o k v :
  JsObject.keys (JsObject.set o k v) =
  match JsObject.get o k with
  | Some _ => JsObject.keys o
  | None => JsObject.keys o ++ [k]
  end.
Proof.
  induction o as [|[k' v'] o IH]; simpl; auto.
  destruct (String.eqb k' k) eqn:E; simpl; auto.
  rewrite IH. now destruct (JsObject.get o k).
Qed.

Lemma delete_set o k v :
  JsObject.delete (JsObject.set o k v) k = JsObject.delete o k.
Proof.
  induction o as [|[k' v'] o IH]; simpl.
  - now rewrite String.eqb_refl.
  - destruct (String.eqb k' k) eqn:E; simpl; rewrite E; auto.
    now rewrite IH.
Qed.

Lemma delete_absent o k :
  JsObject.get o k = None -> JsObject.delete o k = o.
Proof.
  induction o as [|[k' v'] o IH]; simpl; auto.
  destruct (String.eqb k' k); [discriminate|].
  intros H. now rewrite IH.
Qed.

Lemma Permutation_insert_index (p : N * V) l :
  Permutation (JsObject.insert_index p l) (p :: l).
Proof.
  induction l as [|q l IH]; simpl; auto.
  destruct (fst p <=? fst q)%N; auto.
  rewrite IH. apply perm_swap.
Qed.

Lemma Permutation_sort_index (l : list (N * V)) :
  Permutation (JsObject.sort_index l) l.
Proof.
  induction l as [|p l IH]; simpl; auto.
  rewrite Permutation_insert_index. now constructor.
Qed.

(** [Object.values] lists every own property's value once. *)
Lemma Permutation_values o : Permutation (JsObject.values o) (map snd o).
Proof.
  unfold JsObject.values.
  rewrite (Permutation_map snd (Permutation_sort_index _)).
  induction o as [|[k v] o IH]; simpl; auto.
  destruct (JsObject.array_index k); simpl.
  - now constructor.
  - rewrite <- Permutation_middle. now constructor.
Qed.

Lemma values_without_index_keys o :
  (forall k, In k (JsObject.keys o) -> JsObject.array_index k = None) ->
  JsObject.values o = map snd o.
Proof.
  unfold JsObject.values. induction o as [|[k v] o IH]; intros H; auto.
  assert (Hk : JsObject.array_index k = None) by (apply H; now left).
  assert (Ho : forall k', In k' (JsObject.keys o) ->
                          JsObject.array_index k' = None)
    by (intros k' Hin; apply H; now right).
  specialize (IH Ho). simpl in *. rewrite Hk. simpl.
  destruct (JsObject.index_props o) as [|p l] eqn:E.
  - simpl in *. now rewrite IH.
  - exfalso. assert (Hin : In p (JsObject.index_props o))
      by (rewrite E; now left).
    unfold JsObject.index_props in Hin. apply in_flat_map in Hin.
    destruct Hin as [[k' v'] [Hin' Hm]]. simpl in Hm.
    rewrite (Ho k') in Hm; [contradiction|].
    apply (in_map fst) in Hin'. exact Hin'.
Qed.

End JsObjectMoreFacts.

(** ** Registration and the snapshot *)

(** X4.  An accepted [register_user] adds the socket id as the last key of
    the registry when the socket had no session, and keeps the keys and
    their order when it had one: registering again never adds an entry. *)
Theorem register_user_keys :
  forall st sid u,
    u <> "" ->
    JsObject.keys (activeUsers (state_of (on_register_user sid (Some u) st)))
    = match JsObject.get (activeUsers st) sid with
      | Some _ => JsObject.keys (activeUsers st)
      | None => JsObject.keys (activeUsers st) ++ [sid]
      end.
Proof.
  intros st sid u Hne. rewrite (on_register_user_nonempty _ _ _ Hne).
  unfold state_of. simpl. apply keys_set.
Qed.

Lemma register_user_keys_witness :
  "bob" <> "" /\
  JsObject.keys
    (activeUsers
       (state_of
          (on_register_user "A" (Some "bob")
             (fst (run init [("A", register_user (Some "alice"));
                             ("B", register_user (Some "carol"))])))))
  = ["A"; "B"].
Proof.
  assert (Hne : "bob" <> "") by discriminate.
  split; [exact Hne|].
  exact (register_user_keys
           (fst (run init [("A", register_user (Some "alice"));
                           ("B", register_user (Some "carol"))]))
           "A" "bob" Hne).
Defined.

(** X5.  In a reachable state [Object.values(activeUsers)] holds each
    registered session exactly once: it is a rearrangement of the registry's
    records, as long as the registry, with no two records of the same id. *)
Theorem snapshot_lists_each_session_once :
  forall st,
    reachable st ->
    Permutation (JsObject.values (activeUsers st))
                (map snd (activeUsers st)) /\
    List.length (JsObject.values (activeUsers st)) =
      List.length (activeUsers st) /\
    NoDup (map Session.id (JsObject.values (activeUsers st))).
Proof.
  intros st Hr. pose proof (Permutation_values (activeUsers st)) as HP.
  split; [exact HP|]. split.
  - rewrite (Permutation_length HP). apply length_map.
  - apply (Permutation_NoDup
             (Permutation_sym (Permutation_map Session.id HP))).
    pose proof (reachable_registry_ok _ Hr) as [Hnd Hall].
    assert (E : map Session.id (map snd (activeUsers st)) =
                JsObject.keys (activeUsers st)).
    { unfold JsObject.keys. rewrite map_map. apply map_ext_in.
      intros [k s] Hin. simpl. now destruct (Hall _ _ Hin). }
    now rewrite E.
Qed.

Lemma snapshot_lists_each_session_once_witness :
  reachable
    (fst (run init [("A", register_user (Some "alice"));
                    ("7", register_user (Some "bob"))])) /\
  NoDup
    (map Session.id
       (JsObject.values
          (activeUsers
             (fst (run init [("A", register_user (Some "alice"));
                             ("7", register_user (Some "bob"))]))))).
Proof.
  assert (Hr : reachable
                 (fst (run init [("A", register_user (Some "alice"));
                                 ("7", register_user (Some "bob"))]))).
  { exact (reachable_step _ "7" (register_user (Some "bob"))
             (reachable_step _ "A" (register_user (Some "alice"))
                reachable_init)). }
  split; [exact Hr|].
  exact (proj2 (proj2 (snapshot_lists_each_session_once _ Hr))).
Defined.

(** X6.  When no registered socket id is an array index, the snapshot lists
    the sessions in the order in which their keys were created, that is in
    the order of first registration since the socket's last disconnect. *)
Theorem snapshot_in_registration_order :
  forall st,
    (forall k, In k (JsObject.keys (activeUsers st)) ->
               JsObject.array_index k = None) ->
    JsObject.values (activeUsers st) = map snd (activeUsers st).
Proof. intros st H. now apply values_without_index_keys. Qed.

Lemma snapshot_in_registration_order_witness :
  (forall k,
      In k (JsObject.keys
              (activeUsers
                 (fst (run init [("b", register_user (Some "bob"));
                                 ("a", register_user (Some "alice"))])))) ->
      JsObject.array_index k = None) /\
  JsObject.values
    (activeUsers
       (fst (run init [("b", register_user (Some "bob"));
                       ("a", register_user (Some "alice"))]))) =
  [Session.mk "b" "bob" "online"; Session.mk "a" "alice" "online"].
Proof.
  assert (H : forall k,
             In k (JsObject.keys
                     (activeUsers
                        (fst (run init
                                [("b", register_user (Some "bob"));
                                 ("a", register_user (Some "alice"))])))) ->
             JsObject.array_index k = None).
  { simpl. intros k [<-|[<-|[]]]; reflexivity. }
  split; [exact H|].
  exact (snapshot_in_registration_order _ H).
Defined.

(** ** How the handlers compose *)

(** X7.  Registering a socket and then disconnecting it leaves the registry
    as [delete] of the socket's key would: for a socket that had no session
    the registry is back to what it was, and the log is untouched. *)
Theorem register_then_disconnect_restores_registry :
  forall st sid u,
    u <> "" ->
    let st1 := state_of (on_register_user sid (Some u) st) in
    let st2 := state_of (on_disconnect sid st1) in
    activeUsers st2 = JsObject.delete (activeUsers st) sid /\
    messageHistory st2 = messageHistory st /\
    (JsObject.get (activeUsers st) sid = None ->
     activeUsers st2 = activeUsers st) /\
    output_of (on_disconnect sid st1) =
      [Emit ToAll (user_left sid);
       Emit ToAll
         (active_users
            (JsObject.values (JsObject.delete (activeUsers st) sid)))].
Proof.
  intros st sid u Hne st1 st2. subst st2 st1.
  rewrite (on_register_user_nonempty _ _ _ Hne). cbv zeta.
  unfold state_of at 2 4 6 7. cbn [fst snd].
  rewrite (on_disconnect_registered sid (Session.mk sid u "online")
             (mkState _ _ _)) by (simpl; apply get_set_same).
  cbv zeta. unfold state_of, output_of. cbn [fst snd activeUsers
  messageHistory Session.id].
  rewrite delete_set. repeat split; auto.
  intros Hnone. now apply delete_absent.
Qed.

Lemma register_then_disconnect_witness :
  "bob" <> "" /\
  JsObject.get
    (activeUsers (state_of (on_register_user "A" (Some "alice") init))) "B"
  = None /\
  activeUsers
    (state_of
       (on_disconnect "B"
          (state_of
             (on_register_user "B" (Some "bob")
                (state_of (on_register_user "A" (Some "alice") init))))))
  = activeUsers (state_of (on_register_user "A" (Some "alice") init)).
Proof.
  assert (Hne : "bob" <> "") by discriminate.
  split; [exact Hne|]. split; [reflexivity|].
  destruct (register_then_disconnect_restores_registry
              (state_of (on_register_user "A" (Some "alice") init))
              "B" "bob" Hne) as [_ [_ [H _]]].
  apply H. reflexivity.
Defined.

(** X8.  After [disconnect] a socket has no session, whatever the state
    was: a second [disconnect] and the typing events do nothing, and a
    [send_message] is answered by the authentication error alone. *)
Theorem after_disconnect_socket_is_unregistered :
  forall st sid,
    let st1 := state_of (on_disconnect sid st) in
    JsObject.get (activeUsers st1) sid = None /\
    on_disconnect sid st1 = (tt, st1, []) /\
    on_typing_start sid st1 = (tt, st1, []) /\
    on_typing_stop sid st1 = (tt, st1, []) /\
    forall payload date_now date_iso,
      on_send_message sid payload date_now date_iso st1 =
        (tt, st1,
         [Emit (ToSocket sid)
               (system_error "Authentication failed. Please refresh.")]).
Proof.
  intros st sid st1.
  assert (Hnone : JsObject.get (activeUsers st1) sid = None).
  { subst st1.
    destruct (JsObject.get (activeUsers st) sid) as [user|] eqn:E.
    - rewrite (on_disconnect_registered _ _ _ E). unfold state_of. simpl.
      apply get_delete_same.
    - now rewrite (on_disconnect_unregistered _ _ E). }
  split; [exact Hnone|].
  split; [now apply on_disconnect_unregistered|].
  split; [now apply on_typing_unregistered|].
  split; [now apply on_typing_unregistered|].
  intros. now apply on_send_message_unregistered.
Qed.

(** X9.  After an accepted [register_user] a [send_message] from the same
    socket is accepted, in whatever state the registration ran: the message
    carries the socket id and the username just registered. *)
Theorem register_then_send_is_accepted :
  forall st sid u payload date_now date_iso,
    u <> "" ->
    let st1 := state_of (on_register_user sid (Some u) st) in
    let message :=
      Message.mk (number_toString date_now) "group-1" sid u
                 (Payload.content payload) "text" date_iso "delivered" in
    messageHistory
      (state_of (on_send_message sid payload date_now date_iso st1)) =
      messageHistory st ++ [message] /\
    output_of (on_send_message sid payload date_now date_iso st1) =
      [Emit ToAll (new_message message);
       Emit ToAll (typing_status sid None false)].
Proof.
  intros st sid u payload date_now date_iso Hne st1 message.
  assert (Hget : JsObject.get (activeUsers st1) sid =
                 Some (Session.mk sid u "online")).
  { subst st1. rewrite (on_register_user_nonempty _ _ _ Hne).
    unfold state_of. simpl. apply get_set_same. }
  assert (Hlog : messageHistory st1 = messageHistory st).
  { subst st1. now rewrite (on_register_user_nonempty _ _ _ Hne). }
  rewrite (on_send_message_registered _ _ _ _ _ _ Hget). cbv zeta.
  unfold state_of, output_of. cbn [fst snd messageHistory Session.id
  Session.username]. rewrite Hlog. split; reflexivity.
Qed.

Lemma register_then_send_witness :
  "alice" <> "" /\
  output_of
    (on_send_message "A" (Payload.mk "hi") 1 "t1"
       (state_of (on_register_user "A" (Some "alice") init))) =
  [Emit ToAll
     (new_message
        (Message.mk "1" "group-1" "A" "alice" "hi" "text" "t1" "delivered"));
   Emit ToAll (typing_status "A" None false)].
Proof.
  assert (Hne : "alice" <> "") by discriminate.
  split; [exact Hne|].
  exact (proj2 (register_then_send_is_accepted init "A" "alice"
                  (Payload.mk "hi") 1 "t1" Hne)).
Defined.

(** X10.  A client that registers after any run from the initial state is
    handed, in [user_registered], exactly the messages that were broadcast
    as [new_message] during the run, in the order they were broadcast. *)
Theorem late_joiner_receives_all_broadcast_messages :
  forall trace sid u,
    u <> "" ->
    exists rest,
      output_of (on_register_user sid (Some u) (fst (run init trace))) =
        Emit (ToSocket sid)
             (user_registered sid (new_messages (snd (run init trace))))
        :: rest.
Proof.
  intros trace sid u Hne. rewrite (on_register_user_nonempty _ _ _ Hne).
  cbv zeta. unfold output_of. cbn [snd].
  rewrite (proj1 (run_log_and_broadcast init trace)). simpl. eauto.
Qed.

Lemma late_joiner_witness :
  "bob" <> "" /\
  exists rest,
    output_of
      (on_register_user "B" (Some "bob")
         (fst (run init [("A", register_user (Some "alice"));
                         ("A", send_message (Payload.mk "hi") 1 "t1")]))) =
      Emit (ToSocket "B")
           (user_registered "B"
              [Message.mk "1" "group-1" "A" "alice" "hi" "text" "t1"
                          "delivered"])
      :: rest.
Proof.
  assert (Hne : "bob" <> "") by discriminate.
  split; [exact Hne|].
  exact (late_joiner_receives_all_broadcast_messages
           [("A", register_user (Some "alice"));
            ("A", send_message (Payload.mk "hi") 1 "t1")] "B" "bob" Hne).
Defined.

(** ** The registry along a run *)

Lemma handle_session_step sid sid' e st :
  JsObject.get (activeUsers (state_of (handle sid' e st))) sid =
  session_step sid (JsObject.get (activeUsers st) sid) (sid', e).
Proof.
  unfold session_step. cbn [fst snd].
  destruct e as [username|payload date_now date_iso| | |]; simpl handle.
  - destruct (username_cases username) as [Hemp|[u [-> Hne]]].
    + assert (Hstep :
                match username with
                | Some (String a u) => Some (Session.mk sid (String a u) "online")
                | _ => None
                end = @None Session.t)
        by (now destruct Hemp as [->| ->]).
      rewrite Hstep. clear Hstep.
      rejected_cases st sid' Hemp; unfold state_of; simpl.
      * destruct (String.eqb sid' sid) eqn:E'.
        -- apply String.eqb_eq in E'. subst sid'. apply get_delete_same.
        -- apply String.eqb_neq in E'. now apply get_delete_other.
      * destruct (String.eqb sid' sid) eqn:E'; auto.
        apply String.eqb_eq in E'. now subst sid'.
    + rewrite (on_register_user_nonempty _ _ _ Hne). unfold state_of.
      simpl. destruct (String.eqb sid' sid) eqn:E.
      * apply String.eqb_eq in E. subst sid'. rewrite get_set_same.
        destruct u; [congruence | reflexivity].
      * apply String.eqb_neq in E. now apply get_set_other.
  - assert (H : activeUsers
                  (state_of (on_send_message sid' payload date_now date_iso
                               st)) = activeUsers st).
    { destruct (JsObject.get (activeUsers st) sid') as [sender|] eqn:E.
      - now rewrite (on_send_message_registered _ _ _ _ _ _ E).
      - now rewrite (on_send_message_unregistered _ _ _ _ _ E). }
    rewrite H. now destruct (String.eqb sid' sid).
  - assert (H : state_of (on_typing_start sid' st) = st).
    { destruct (JsObject.get (activeUsers st) sid') as [sender|] eqn:E.
      - now rewrite (proj1 (on_typing_registered _ _ _ E)).
      - now rewrite (proj1 (on_typing_unregistered _ _ E)). }
    rewrite H. now destruct (String.eqb sid' sid).
  - assert (H : state_of (on_typing_stop sid' st) = st).
    { destruct (JsObject.get (activeUsers st) sid') as [sender|] eqn:E.
      - now rewrite (proj2 (on_typing_registered _ _ _ E)).
      - now rewrite (proj2 (on_typing_unregistered _ _ E)). }
    rewrite H. now destruct (String.eqb sid' sid).
  - destruct (JsObject.get (activeUsers st) sid') as [user|] eqn:E.
    + rewrite (on_disconnect_registered _ _ _ E). unfold state_of. simpl.
      destruct (String.eqb sid' sid) eqn:E'.
      * apply String.eqb_eq in E'. subst sid'. apply get_delete_same.
      * apply String.eqb_neq in E'. now apply get_delete_other.
    + rewrite (on_disconnect_unregistered _ _ E). unfold state_of. simpl.
      destruct (String.eqb sid' sid) eqn:E'; auto.
      apply String.eqb_eq in E'. now subst sid'.
Qed.

(** X11.  The session a socket has after a run is decided by that socket's
    own [register_user] and [disconnect] events alone: it is the record of
    its last accepted [register_user] if neither a [disconnect] nor a
    rejected [register_user] of the socket came after it, none if the last
    such event is a [disconnect] or a rejected [register_user], and the
    session it started with if it had none of them.  Events of other
    sockets, messages and typing events play no part. *)
Theorem registry_follows_own_events :
  forall trace st sid,
    JsObject.get (activeUsers (fst (run st trace))) sid =
    session_after sid (JsObject.get (activeUsers st) sid) trace.
Proof.
  induction trace as [|[sid' e] trace IH]; intros st sid; auto.
  rewrite run_cons. cbn [fst]. rewrite IH, handle_session_step.
  reflexivity.
Qed.

(** X12.  In a reachable state the [username] property set on a socket
    agrees with the registry: a registered socket's property is the username
    of its session. *)
Theorem socket_username_matches_registry :
  forall st,
    reachable st ->
    forall sid s,
      JsObject.get (activeUsers st) sid = Some s ->
      JsObject.get (socket_username st) sid = Some (Session.username s).
Proof.
  induction 1 as [|st sid' e Hr IH]; intros sid s.
  - discriminate.
  - destruct e as [username|payload date_now date_iso| | |]; simpl handle.
    + destruct (username_cases username) as [Hemp|[u [-> Hne]]].
      * rejected_cases st sid' Hemp; [|apply IH].
        unfold state_of. simpl. intros Hget. apply IH.
        destruct (String.eqb sid' sid) eqn:E'.
        -- apply String.eqb_eq in E'. subst sid'.
           now rewrite get_delete_same in Hget.
        -- apply String.eqb_neq in E'.
           now rewrite get_delete_other in Hget.
      * rewrite (on_register_user_nonempty _ _ _ Hne). unfold state_of.
        simpl. destruct (String.eqb sid' sid) eqn:E.
        -- apply String.eqb_eq in E. subst sid'. rewrite !get_set_same.
           now intros [= <-].
        -- apply String.eqb_neq in E. rewrite !get_set_other by assumption.
           apply IH.
    + destruct (JsObject.get (activeUsers st) sid') as [sender|] eqn:E.
      * rewrite (on_send_message_registered _ _ _ _ _ _ E). apply IH.
      * rewrite (on_send_message_unregistered _ _ _ _ _ E). apply IH.
    + destruct (JsObject.get (activeUsers st) sid') as [sender|] eqn:E.
      * rewrite (proj1 (on_typing_registered _ _ _ E)). apply IH.
      * rewrite (proj1 (on_typing_unregistered _ _ E)). apply IH.
    + destruct (JsObject.get (activeUsers st) sid') as [sender|] eqn:E.
      * rewrite (proj2 (on_typing_registered _ _ _ E)). apply IH.
      * rewrite (proj2 (on_typing_unregistered _ _ E)). apply IH.
    + destruct (JsObject.get (activeUsers st) sid') as [user|] eqn:E.
      * rewrite (on_disconnect_registered _ _ _ E). unfold state_of. simpl.
        intros Hget. apply IH.
        destruct (String.eqb sid' sid) eqn:E'.
        -- apply String.eqb_eq in E'. subst sid'.
           now rewrite get_delete_same in Hget.
        -- apply String.eqb_neq in E'.
           now rewrite get_delete_other in Hget.
      * rewrite (on_disconnect_unregistered _ _ E). apply IH.
Qed.

Lemma socket_username_matches_registry_witness :
  reachable
    (fst (run init [("A", register_user (Some "alice"));
                    ("A", register_user (Some "bob"))])) /\
  JsObject.get
    (activeUsers
       (fst (run init [("A", register_user (Some "alice"));
                       ("A", register_user (Some "bob"))]))) "A"
  = Some (Session.mk "A" "bob" "online") /\
  JsObject.get
    (socket_username
       (fst (run init [("A", register_user (Some "alice"));
                       ("A", register_user (Some "bob"))]))) "A"
  = Some "bob".
Proof.
  assert (Hr : reachable
                 (fst (run init [("A", register_user (Some "alice"));
                                 ("A", register_user (Some "bob"))]))).
  { exact (reachable_step _ "A" (register_user (Some "bob"))
             (reachable_step _ "A" (register_user (Some "alice"))
                reachable_init)). }
  split; [exact Hr|]. split; [reflexivity|].
  exact (socket_username_matches_registry _ Hr "A"
           (Session.mk "A" "bob" "online") eq_refl).
Defined.

(** ** What the handlers never do *)

(** X13.  A handler emits nothing exactly when the event is [typing_start],
    [typing_stop] or [disconnect] on a socket without a session; then it
    also leaves the state alone.  Every other event is answered by at least
    one transport call. *)
Theorem silent_iff_unregistered_typing_or_disconnect :
  forall st sid e,
    (output_of (handle sid e st) = [] <->
     needs_session e = true /\ JsObject.get (activeUsers st) sid = None) /\
    (output_of (handle sid e st) = [] -> state_of (handle sid e st) = st).
Proof.
  intros st sid e.
  destruct e as [username|payload date_now date_iso| | |]; simpl.
  - destruct (username_cases username) as [Hemp|[u [-> Hne]]].
    + rejected_cases st sid Hemp; simpl;
        (split; [split|]; try discriminate; now intros [? _]).
    + rewrite (on_register_user_nonempty _ _ _ Hne). simpl.
      split; [split|]; try discriminate. now intros [? _].
  - destruct (JsObject.get (activeUsers st) sid) as [sender|] eqn:E.
    + rewrite (on_send_message_registered _ _ _ _ _ _ E). simpl.
      split; [split|]; try discriminate. now intros [? _].
    + rewrite (on_send_message_unregistered _ _ _ _ _ E). simpl.
      split; [split|]; try discriminate. now intros [? _].
  - destruct (JsObject.get (activeUsers st) sid) as [sender|] eqn:E.
    + rewrite (proj1 (on_typing_registered _ _ _ E)). simpl.
      split; [split|]; try discriminate. now intros [_ ?].
    + rewrite (proj1 (on_typing_unregistered _ _ E)). simpl. tauto.
  - destruct (JsObject.get (activeUsers st) sid) as [sender|] eqn:E.
    + rewrite (proj2 (on_typing_registered _ _ _ E)). simpl.
      split; [split|]; try discriminate. now intros [_ ?].
    + rewrite (proj2 (on_typing_unregistered _ _ E)). simpl. tauto.
  - destruct (JsObject.get (activeUsers st) sid) as [user|] eqn:E.
    + rewrite (on_disconnect_registered _ _ _ E). simpl.
      split; [split|]; try discriminate. now intros [_ ?].
    + rewrite (on_disconnect_unregistered _ _ E). simpl. tauto.
Qed.

Lemma silent_witness :
  output_of (handle "A" typing_start init) = [] /\
  state_of (handle "A" typing_start init) = init.
Proof.
  assert (H : output_of (handle "A" typing_start init) = [])
    by reflexivity.
  split; [exact H|].
  exact (proj2 (silent_iff_unregistered_typing_or_disconnect init "A"
                  typing_start) H).
Defined.

(** X14.  The server closes a connection only in answer to a
    [register_user] with a missing or empty username, and then it is the
    connection that sent it, closed with the flag set. *)
Theorem server_closes_only_on_empty_username :
  forall st sid e s close,
    In (Disconnect s close) (output_of (handle sid e st)) ->
    s = sid /\ close = true /\
    (e = register_user None \/ e = register_user (Some "")).
Proof.
  intros st sid e s close.
  destruct e as [username|payload date_now date_iso| | |]; simpl.
  - destruct (username_cases username) as [Hemp|[u [-> Hne]]].
    + rejected_cases st sid Hemp; simpl.
      * intros [H|[H|[H|[H|[]]]]]; inversion H; subst.
        repeat split. destruct Hemp as [->| ->]; auto.
      * intros [H|[H|[]]]; inversion H; subst.
        repeat split. destruct Hemp as [->| ->]; auto.
    + rewrite (on_register_user_nonempty _ _ _ Hne). simpl.
      intros [H|[H|[H|[]]]]; discriminate.
  - destruct (JsObject.get (activeUsers st) sid) as [sender|] eqn:E.
    + rewrite (on_send_message_registered _ _ _ _ _ _ E). simpl.
      intros [H|[H|[]]]; discriminate.
    + rewrite (on_send_message_unregistered _ _ _ _ _ E). simpl.
      intros [H|[]]; discriminate.
  - destruct (JsObject.get (activeUsers st) sid) as [sender|] eqn:E.
    + rewrite (proj1 (on_typing_registered _ _ _ E)). simpl.
      intros [H|[]]; discriminate.
    + rewrite (proj1 (on_typing_unregistered _ _ E)). simpl. tauto.
  - destruct (JsObject.get (activeUsers st) sid) as [sender|] eqn:E.
    + rewrite (proj2 (on_typing_registered _ _ _ E)). simpl.
      intros [H|[]]; discriminate.
    + rewrite (proj2 (on_typing_unregistered _ _ E)). simpl. tauto.
  - destruct (JsObject.get (activeUsers st) sid) as [user|] eqn:E.
    + rewrite (on_disconnect_registered _ _ _ E). simpl.
      intros [H|[H|[]]]; discriminate.
    + rewrite (on_disconnect_unregistered _ _ E). simpl. tauto.
Qed.

Lemma server_closes_witness :
  In (Disconnect "A" true) (output_of (handle "A" (register_user None) init))
  /\ "A" = "A" /\ true = true /\
  (register_user None = register_user None \/
   register_user None = register_user (Some "")).
Proof.
  assert (H : In (Disconnect "A" true)
                 (output_of (handle "A" (register_user None) init)))
    by (simpl; right; left; reflexivity).
  split; [exact H|].
  exact (server_closes_only_on_empty_username init "A" (register_user None)
           "A" true H).
Defined.

(** X15.  Over any run, the session of a socket is untouched as long as
    the socket's own events are only messages and typing events: events of
    other sockets, whatever they are, leave its record as it is. *)
Theorem session_untouched_by_other_events :
  forall trace st sid,
    (forall sid' e,
        In (sid', e) trace ->
        sid' <> sid \/
        (e <> disconnect /\ forall username, e <> register_user username)) ->
    JsObject.get (activeUsers (fst (run st trace))) sid =
    JsObject.get (activeUsers st) sid.
Proof.
  induction trace as [|[sid' e] trace IH]; intros st sid H; auto.
  rewrite run_cons. cbn [fst].
  rewrite IH by (intros; apply H; now right).
  rewrite handle_session_step. unfold session_step. cbn [fst snd].
  destruct (String.eqb sid' sid) eqn:E; auto.
  apply String.eqb_eq in E.
  destruct (H sid' e (or_introl eq_refl)) as [Hne|[Hd Hreg]];
    [contradiction|].
  destruct e as [username|payload date_now date_iso| | |]; auto.
  - exfalso. now apply (Hreg username).
  - congruence.
Qed.

Lemma session_untouched_witness :
  (forall sid' e,
      In (sid', e)
         [("B", register_user (Some "bob"));
          ("A", send_message (Payload.mk "hi") 1 "t1");
          ("B", register_user (Some ""))] ->
      sid' <> "A" \/
      (e <> disconnect /\ forall username, e <> register_user username)) /\
  JsObject.get
    (activeUsers
       (fst (run (state_of (on_register_user "A" (Some "alice") init))
               [("B", register_user (Some "bob"));
                ("A", send_message (Payload.mk "hi") 1 "t1");
                ("B", register_user (Some ""))]))) "A"
  = Some (Session.mk "A" "alice" "online").
Proof.
  assert (H : forall sid' e,
             In (sid', e)
                [("B", register_user (Some "bob"));
                 ("A", send_message (Payload.mk "hi") 1 "t1");
                 ("B", register_user (Some ""))] ->
             sid' <> "A" \/
             (e <> disconnect /\
              forall username, e <> register_user username)).
  { intros sid' e [Heq|[Heq|[Heq|[]]]]; inversion Heq; subst.
    - left. discriminate.
    - right. split; [discriminate|]. intros username. discriminate.
    - left. discriminate. }
  split; [exact H|].
  exact (session_untouched_by_other_events _
           (state_of (on_register_user "A" (Some "alice") init)) "A" H).
Defined.

(** X16.  In a reachable state every event a handler emits names the socket
    the inbound event arrived on, and goes where that kind of event always
    goes: [system_error] and [user_registered] (with the log) only to that
    socket; [user_joined], [new_message], [user_left] and [active_users] to
    all; [typing_status] to all after a message and to all but the sender
    from the typing handlers. *)
Theorem events_speak_for_their_socket :
  forall st sid e to ev,
    reachable st ->
    In (Emit to ev) (output_of (handle sid e st)) ->
    match ev with
    | system_error _ => to = ToSocket sid
    | user_registered userId history =>
        to = ToSocket sid /\ userId = sid /\ history = messageHistory st
    | user_joined id _ => to = ToAll /\ id = sid
    | active_users _ => to = ToAll
    | new_message message => to = ToAll /\ Message.senderId message = sid
    | typing_status userId None _ => to = ToAll /\ userId = sid
    | typing_status userId (Some _) _ => to = ToAllExcept sid /\ userId = sid
    | user_left id => to = ToAll /\ id = sid
    end.
Proof.
  intros st sid e to ev Hr.
  destruct e as [username|payload date_now date_iso| | |]; simpl.
  - destruct (username_cases username) as [Hemp|[u [-> Hne]]].
    + rejected_cases st sid Hemp; simpl.
      * pose proof (reachable_session_id _ _ _ Hr E) as Hid.
        intros [H|[H|[H|[H|[]]]]]; inversion H; subst; auto.
      * intros [H|[H|[]]]; inversion H; subst. reflexivity.
    + rewrite (on_register_user_nonempty _ _ _ Hne). simpl.
      intros [H|[H|[H|[]]]]; inversion H; subst; auto.
  - destruct (JsObject.get (activeUsers st) sid) as [sender|] eqn:E.
    + rewrite (on_send_message_registered _ _ _ _ _ _ E). simpl.
      pose proof (reachable_session_id _ _ _ Hr E) as Hid.
      intros [H|[H|[]]]; inversion H; subst; auto.
    + rewrite (on_send_message_unregistered _ _ _ _ _ E). simpl.
      intros [H|[]]; inversion H; subst. reflexivity.
  - destruct (JsObject.get (activeUsers st) sid) as [sender|] eqn:E.
    + rewrite (proj1 (on_typing_registered _ _ _ E)). simpl.
      pose proof (reachable_session_id _ _ _ Hr E) as Hid.
      intros [H|[]]; inversion H; subst; auto.
    + rewrite (proj1 (on_typing_unregistered _ _ E)). simpl. tauto.
  - destruct (JsObject.get (activeUsers st) sid) as [sender|] eqn:E.
    + rewrite (proj2 (on_typing_registered _ _ _ E)). simpl.
      pose proof (reachable_session_id _ _ _ Hr E) as Hid.
      intros [H|[]]; inversion H; subst; auto.
    + rewrite (proj2 (on_typing_unregistered _ _ E)). simpl. tauto.
  - destruct (JsObject.get (activeUsers st) sid) as [user|] eqn:E.
    + rewrite (on_disconnect_registered _ _ _ E). simpl.
      pose proof (reachable_session_id _ _ _ Hr E) as Hid.
      intros [H|[H|[]]]; inversion H; subst; auto.
    + rewrite (on_disconnect_unregistered _ _ E). simpl. tauto.
Qed.

Lemma events_speak_witness :
  reachable (state_of (handle "A" (register_user (Some "alice")) init)) /\
  In (Emit ToAll (user_left "A"))
     (output_of
        (handle "A" disconnect
           (state_of (handle "A" (register_user (Some "alice")) init)))) /\
  ToAll = ToAll /\ "A" = "A".
Proof.
  assert (Hr : reachable
                 (state_of (handle "A" (register_user (Some "alice")) init)))
    by exact (reachable_step _ "A" (register_user (Some "alice"))
                reachable_init).
  assert (Hin : In (Emit ToAll (user_left "A"))
                   (output_of
                      (handle "A" disconnect
                         (state_of
                            (handle "A" (register_user (Some "alice"))
                               init)))))
    by (simpl; left; reflexivity).
  split; [exact Hr|]. split; [exact Hin|].
  exact (events_speak_for_their_socket _ "A" disconnect ToAll
           (user_left "A") Hr Hin).
Defined.
